(** * Acquisitions API: authentication, session cookies and user handlers

    A shallow embedding of the JavaScript sources
      - [src/utils/jwt.js]                (token codec wrapper),
      - [src/utils/cookies.js]            (session cookie helper),
      - [src/services/auth.service.js]    (credential verifier),
      - [src/controllers/users.controller.js] (user handlers),
    followed by the properties the specification states about them.

    JavaScript objects are finite maps from property names to values,
    [async] functions are computations in a state-and-exception monad over
    the process state (users table, logger output, response object), and
    [try]/[catch] is the monad's handler. *)

From stdpp Require Import gmap strings list fin_maps pretty.

Open Scope string_scope.
Open Scope Z_scope.

(* ===================================================================== *)
(** ** JavaScript values, objects and errors *)
(* ===================================================================== *)

Inductive JsVal :=
| JUndefined
| JNull
| JBool (b : bool)
| JNum (n : Z)
| JStr (s : string).

#[global] Instance JsVal_eq_dec : EqDecision JsVal.
Proof. solve_decision. Defined.

(** A plain object: property name to value. *)
Abbreviation JsObj := (gmap string JsVal).

(** Truthiness, as used by [if (x)], [!x], [a && b], [a || b]. *)
Definition truthy (v : JsVal) : bool :=
  match v with
  | JUndefined | JNull => false
  | JBool b => b
  | JNum n => negb (n =? 0)
  | JStr s => negb (bool_decide (s = ""))
  end.

(** Property read [o.k]: a missing property reads as [undefined]. *)
Definition js_get (o : JsObj) (k : string) : JsVal := default JUndefined (o !! k).

(** Object spread [{ ...a, ...b }]: the later operand wins on a shared key. *)
Definition spread (a b : JsObj) : JsObj := b ∪ a.

(** String conversion inside a template literal. *)
Definition js_toString (v : JsVal) : string :=
  match v with
  | JUndefined => "undefined"
  | JNull => "null"
  | JBool true => "true"
  | JBool false => "false"
  | JNum n => pretty n
  | JStr s => s
  end.

(** JSON bodies handed to [res.json]: an object literal whose properties
    are primitive values or (one level of) nested objects. *)
Inductive JsonField :=
| JV (v : JsVal)
| JO (o : JsObj).

Abbreviation Json := (list (string * JsonField)).

(** An [Error] instance: its [name] and its [message]. *)
Record JsError := mkError { err_name : string; err_message : string }.

#[global] Instance JsError_eq_dec : EqDecision JsError.
Proof. solve_decision. Defined.

(** [new Error(m)] *)
Definition Error (m : string) : JsError := mkError "Error" m.

(** [`${e}`] for an error: [Error.prototype.toString], which leaves out the
    separator when the name or the message is empty. *)
Definition error_toString (e : JsError) : string :=
  match err_message e, err_name e with
  | "", n => n
  | m, "" => m
  | m, n => n +:+ ": " +:+ m
  end.

(** [process.env.K || d] *)
Definition env_or (env : gmap string string) (k d : string) : string :=
  match env !! k with
  | Some s => if bool_decide (s = "") then d else s
  | None => d
  end.

(* ===================================================================== *)
(** ** Process state *)
(* ===================================================================== *)

Inductive Level := LInfo | LError.

(** One call to the winston logger: level, message, optional attached error. *)
Record LogEntry := mkLog { lvl : Level; text : string; meta : option JsError }.

(** A row of the [users] table. *)
Record UserRow := mkRow {
  u_id : Z;
  u_name : string;
  u_email : string;
  u_password : string;
  u_role : string;
  u_created_at : Z;
  u_updated_at : Z
}.

(** Calls made on the response object that touch cookies. *)
Inductive CookieCall :=
| SetCookie (cname cvalue : string) (attrs : JsObj)
| ClearCookie (cname : string) (attrs : JsObj).

(** The Express response object of the request being served. *)
Record Res := mkRes {
  statusCode : Z;
  sent : option Json;
  cookie_calls : list CookieCall
}.

Definition fresh_res : Res := mkRes 200 None [].

Record World := mkWorld {
  users : list UserRow;
  next_id : Z;
  now : Z;
  log : list LogEntry;
  res : Res
}.

Definition with_users (us : list UserRow) (w : World) : World :=
  mkWorld us (next_id w) (now w) (log w) (res w).
Definition with_next_id (n : Z) (w : World) : World :=
  mkWorld (users w) n (now w) (log w) (res w).
Definition with_log (l : list LogEntry) (w : World) : World :=
  mkWorld (users w) (next_id w) (now w) l (res w).
Definition with_res (r : Res) (w : World) : World :=
  mkWorld (users w) (next_id w) (now w) (log w) r.

(* ===================================================================== *)
(** ** The monad of [async] functions *)
(* ===================================================================== *)

(** A settled promise: fulfilled with a value or rejected with an error. *)
Inductive Outcome (A : Type) :=
| Fulfilled (a : A)
| Rejected (e : JsError).
Arguments Fulfilled {A} a.
Arguments Rejected {A} e.

Definition M (A : Type) : Type := World -> Outcome A * World.

Definition ret {A} (a : A) : M A := fun w => (Fulfilled a, w).

Definition throw {A} (e : JsError) : M A := fun w => (Rejected e, w).

Definition bind {A B} (c : M A) (k : A -> M B) : M B :=
  fun w =>
    match c w with
    | (Fulfilled a, w') => k a w'
    | (Rejected e, w') => (Rejected e, w')
    end.

(** [try { c } catch (e) { h e }] *)
Definition try_catch {A} (c : M A) (h : JsError -> M A) : M A :=
  fun w =>
    match c w with
    | (Fulfilled a, w') => (Fulfilled a, w')
    | (Rejected e, w') => h e w'
    end.

(** Lifting a synchronous library call that may throw. *)
Definition lift_result {A} (r : JsError + A) : M A :=
  match r with
  | inl e => throw e
  | inr a => ret a
  end.

Definition get_world : M World := fun w => (Fulfilled w, w).
Definition modify (f : World -> World) : M unit := fun w => (Fulfilled tt, f w).

Declare Scope js_scope.
Delimit Scope js_scope with js.
Notation "'let*' x ':=' c 'in' k" := (bind c (fun x => k))
  (at level 10, x pattern, c at level 100, k at level 200) : js_scope.
Notation "c ';;' k" := (bind c (fun _ => k))
  (at level 100, k at level 200, right associativity) : js_scope.
Open Scope js_scope.

(** *** Logger *)

Definition logger_info (msg : string) : M unit :=
  modify (fun w => with_log (log w ++ [mkLog LInfo msg None]) w).

Definition logger_error (msg : string) (e : option JsError) : M unit :=
  modify (fun w => with_log (log w ++ [mkLog LError msg e]) w).

(** *** Response object *)

(** [res.status(code).json(body)]: [status] assigns the code; [json] then
    sends the body, or throws when a body has already been sent. *)
Definition res_status_json (code : Z) (body : Json) : M unit :=
  fun w =>
    match sent (res w) with
    | Some _ =>
        (Rejected (mkError "Error" "Cannot set headers after they are sent to the client"),
         with_res (mkRes code (sent (res w)) (cookie_calls (res w))) w)
    | None =>
        (Fulfilled tt, with_res (mkRes code (Some body) (cookie_calls (res w))) w)
    end.

(** [res.json(body)]: the status code already on the response is kept. *)
Definition res_json (body : Json) : M unit :=
  fun w => res_status_json (statusCode (res w)) body w.

(** [res.cookie(name, value, attrs)] *)
Definition res_cookie (n v : string) (attrs : JsObj) : M unit :=
  modify (fun w =>
    with_res (mkRes (statusCode (res w)) (sent (res w))
                    (cookie_calls (res w) ++ [SetCookie n v attrs])) w).

(** [res.clearCookie(name, attrs)] *)
Definition res_clearCookie (n : string) (attrs : JsObj) : M unit :=
  modify (fun w =>
    with_res (mkRes (statusCode (res w)) (sent (res w))
                    (cookie_calls (res w) ++ [ClearCookie n attrs])) w).

(* ===================================================================== *)
(** ** [src/utils/jwt.js] *)
(* ===================================================================== *)

(** The two entry points of the [jsonwebtoken] package the wrapper calls:
    [jwt.sign(payload, secret, { expiresIn })] and [jwt.verify(token, secret)].
    Both read the system clock and may throw. *)
Class JwtLib (Payload Token Decoded : Type) := {
  jwt_sign : Payload -> string -> string -> Z -> JsError + Token;
  jwt_verify : Token -> string -> Z -> JsError + Decoded
}.

Section JwtUtil.
Context {Payload Token Decoded : Type} {lib : JwtLib Payload Token Decoded}.
(** [process.env] when the module is loaded. *)
Variable env : gmap string string.

Definition JWT_SECRET : string := env_or env "JWT_SECRET" "jwt_secret".
Definition JWT_EXPIRY : string := env_or env "JWT_EXPIRY" "1d".

Definition jwtToken_sign (payload : Payload) : M Token :=
  try_catch
    (let* w := get_world in
     lift_result (jwt_sign payload JWT_SECRET JWT_EXPIRY (now w)))
    (fun error =>
       logger_error "Failed to authenticate token" (Some error);;
       throw (Error "Failed to authenticate token")).

Definition jwtToken_verify (token : Token) : M Decoded :=
  try_catch
    (let* w := get_world in
     lift_result (jwt_verify token JWT_SECRET (now w)))
    (fun error =>
       logger_error "Failed to verify token" (Some error);;
       throw (Error "Failed to verify token")).
End JwtUtil.

(** The token codec behind the wrapper. *)
Module Jsonwebtoken.

(** The signed part of a token: the caller's claims with the issued-at and
    expiry instants the codec embeds. *)
Record Body (C : Type) := mkBody { claims : C; iat : Z; exp : Z }.
Arguments mkBody {C} _ _ _.
Arguments claims {C} _.
Arguments iat {C} _.
Arguments exp {C} _.

(** A token as presented by a client: either text that does not parse as a
    compact serialisation, or a body with a signature. *)
Inductive Wire (C : Type) :=
| Garbage (s : string)
| Compact (b : Body C) (signature : string).
Arguments Garbage {C} s.
Arguments Compact {C} b signature.

Definition TokenExpiredError : JsError := mkError "TokenExpiredError" "jwt expired".
Definition MalformedError : JsError := mkError "JsonWebTokenError" "jwt malformed".
Definition SignatureError : JsError := mkError "JsonWebTokenError" "invalid signature".

Section Model.
Context {C : Type}.
(** The keyed signature function. *)
Variable hmac : string -> Body C -> string.
(** Parsing of the configured time-to-live (such as [1d]) into clock units. *)
Variable timespan : string -> option Z.

(** Modelled from the spec: [jsonwebtoken]'s [sign] is not part of the
    sources; section 4.1 says signing embeds an expiry derived from the
    configured time-to-live, and section 3 that a token carries the
    claims with issued-at and expiry and is signed. *)
Definition sign (payload : C) (secret expiresIn : string) (clock : Z)
  : JsError + Wire C :=
  match timespan expiresIn with
  | None => inl (Error "expiresIn should be a number of seconds or a timespan string")
  | Some ttl =>
      let b := mkBody payload clock (clock + ttl) in
      inr (Compact b (hmac secret b))
  end.

(** Modelled from the spec: [jsonwebtoken]'s [verify] is not part of the
    sources; section 4.1 says verification fails if the structure is
    malformed, the signature does not match, or the token is expired,
    and section 8 that a token presented exactly at its expiry is
    expired. *)
Definition verify (token : Wire C) (secret : string) (clock : Z)
  : JsError + Body C :=
  match token with
  | Garbage _ => inl MalformedError
  | Compact b sig =>
      if bool_decide (hmac secret b = sig)
      then if exp b <=? clock then inl TokenExpiredError else inr b
      else inl SignatureError
  end.

#[local] Instance model : JwtLib C (Wire C) (Body C) :=
  {| jwt_sign := sign; jwt_verify := verify |}.
End Model.

End Jsonwebtoken.

(* ===================================================================== *)
(** ** [src/utils/cookies.js] *)
(* ===================================================================== *)

Section Cookies.
(** [process.env], read on every call of [getOptions]. *)
Variable env : gmap string string.

Definition cookies_getOptions : JsObj :=
  {[ "httpOnly" := JBool true;
     "secure" := JBool (bool_decide (env !! "NODE_ENV" = Some "production"));
     "sameSite" := JStr "strict";
     "maxAge" := JNum (1000 * 60 * 15) ]}.

(** [options] is the fourth argument, [{}] when the caller omits it. *)
Definition cookies_set (name value : string) (options : JsObj) : M unit :=
  res_cookie name value (spread options cookies_getOptions).

(** [req_cookies] holds the cookies the client sent, the own properties of
    [req.cookies]; [None] is [undefined]. *)
Definition cookies_getCookie (req_cookies : gmap string string) (name : string)
  : option string :=
  req_cookies !! name.

Definition cookies_clear (name : string) (options : JsObj) : M unit :=
  res_clearCookie name (spread options cookies_getOptions).
End Cookies.

(* ===================================================================== *)
(** ** The [users] table behind [db] *)
(* ===================================================================== *)

(** Modelled from the spec: the column default of [users.role]
    ([src/models/user.model.js] is not part of the sources); scenario A of
    section 8 has a plain sign-up return an identity with role [user]. *)
Definition users_role_default : string := "user".

(** [db.select().from(users).where(eq(users.email, e)).limit(1)] *)
Definition db_select_users_by_email (e : string) : M (list UserRow) :=
  fun w => (Fulfilled (take 1%nat (filter (fun r => u_email r = e) (users w))), w).

(** [db.insert(users).values({ name, email, password, role })]: the row gets
    the next serial id and the current time; an [undefined] role takes the
    column default. The rows inserted are handed to [returning]. The
    statement is taken to succeed and to run with no other request in
    between: a constraint violation, a lost connection and an interleaved
    writer are outside this table. *)
Definition db_insert_users (n e p : string) (r : option string) : M (list UserRow) :=
  fun w =>
    let row := mkRow (next_id w) n e p (default users_role_default r) (now w) (now w) in
    (Fulfilled [row], with_next_id (next_id w + 1) (with_users (users w ++ [row]) w)).

(** [db.update(users).set(data).where(eq(users.id, i))] for the payloads the
    update schema lets through: a string under [name], [email], [password]
    or [role] and a number under [created_at] or [updated_at] overwrite the
    column. A value of another type and a property [id] are outside this
    table (the driver would coerce the first and renumber the row for the
    second); statements that depend on the written row say so in their
    hypotheses. *)
Definition set_columns (data : JsObj) (r : UserRow) : UserRow :=
  let str k old := match data !! k with Some (JStr s) => s | _ => old end in
  let num k old := match data !! k with Some (JNum n) => n | _ => old end in
  mkRow (u_id r)
        (str "name" (u_name r))
        (str "email" (u_email r))
        (str "password" (u_password r))
        (str "role" (u_role r))
        (num "created_at" (u_created_at r))
        (num "updated_at" (u_updated_at r)).

Definition db_update_users (data : JsObj) (i : Z) : M (list UserRow) :=
  fun w =>
    let touched r := if bool_decide (u_id r = i) then set_columns data r else r in
    let us := map touched (users w) in
    (Fulfilled (filter (fun r => u_id r = i) us), with_users us w).

(* ===================================================================== *)
(** ** [src/services/auth.service.js] *)
(* ===================================================================== *)

(** The two entry points of the [bcrypt] package: [hash(password, rounds)]
    and [compare(password, hash)]. *)
Class Bcrypt := {
  bcrypt_hash : string -> Z -> JsError + string;
  bcrypt_compare : string -> string -> JsError + bool
}.

Section AuthService.
Context {bcrypt : Bcrypt}.

Definition hashPassword (password : string) : M string :=
  try_catch
    (lift_result (bcrypt_hash password 10))
    (fun error =>
       logger_error "Error hashing password" (Some error);;
       throw (Error "Error hashing password")).

Definition comparePassword (password hashedPassword : string) : M bool :=
  try_catch
    (lift_result (bcrypt_compare password hashedPassword))
    (fun e =>
       logger_error ("Error comparing password: " +:+ error_toString e) None;;
       throw (Error "Error comparing password")).

(** The [returning] projection of [createUser] and the object literal
    [authenticateUser] returns carry the same five properties. *)
Definition identity_of (r : UserRow) : JsObj :=
  {[ "id" := JNum (u_id r);
     "name" := JStr (u_name r);
     "email" := JStr (u_email r);
     "role" := JStr (u_role r);
     "created_at" := JNum (u_created_at r) ]}.

(** The result is [newUser], the first element of the returned rows. *)
Definition createUser (name email password : string) (role : option string)
  : M (option JsObj) :=
  try_catch
    (let* existingUser := db_select_users_by_email email in
     (if (0 <? length existingUser)%nat
      then throw (Error "User already exists")
      else ret tt);;
     let* hashedPassword := hashPassword password in
     let* rows := db_insert_users name email hashedPassword role in
     let newUser := head (map identity_of rows) in
     logger_info ("User " +:+ email +:+ " created successfully");;
     ret newUser)
    (fun error =>
       logger_error "Error creating user" (Some error);;
       throw (Error "Error creating user")).

Definition authenticateUser (email password : string) : M JsObj :=
  try_catch
    (let* rows := db_select_users_by_email email in
     match head rows with
     | None => throw (Error "User not found")
     | Some existingUser =>
         let* isPasswordValid := comparePassword password (u_password existingUser) in
         (if negb isPasswordValid
          then throw (Error "Invalid password")
          else ret tt);;
         logger_info ("User " +:+ u_email existingUser +:+ " authenticated successfully");;
         ret (identity_of existingUser)
     end)
    (fun error =>
       logger_error ("Error authenticating user: " +:+ error_toString error) None;;
       throw (Error "Error authenticating user")).
End AuthService.

(* ===================================================================== *)
(** ** [src/controllers/users.controller.js] *)
(* ===================================================================== *)

(** The zod schemas of [src/validations/users.validation.js] as the handlers
    use them: [safeParse] yields the parsed data or an error object, which
    [formatValidationError] renders. *)
Class Validations (Body ZodError : Type) := {
  userIdSchema_safeParse : string -> ZodError + Z;
  updateUserSchema_safeParse : Body -> ZodError + JsObj;
  formatValidationError : ZodError -> JsVal
}.

(** The functions imported from [src/services/users.services.js]; a
    fulfilled call yields the user object, a failed one rejects. *)
Class UsersService := {
  getUserById : Z -> M JsObj;
  deleteUser : Z -> M JsObj
}.

(** What a handler reads from the request: the [:id] route parameter, the
    parsed body, and [req.user] when the authentication middleware set it. *)
Record Req (Body : Type) := mkReq {
  params_id : string;
  body : Body;
  user : option JsObj
}.
Arguments mkReq {Body} _ _ _.
Arguments params_id {Body} _.
Arguments body {Body} _.
Arguments user {Body} _.

(** [eq(users.email, v)] for an arbitrary value: only a string matches. *)
Definition db_select_users_where_email (v : JsVal) : M (list UserRow) :=
  match v with
  | JStr e => db_select_users_by_email e
  | _ => ret []
  end.

(** [a !== b] on primitive values. *)
Definition strict_ne (a b : JsVal) : bool := negb (bool_decide (a = b)).

Definition validation_failed (details : JsVal) : Json :=
  [("error", JV (JStr "Validation failed")); ("details", JV details)].

Definition error_body (err : string) : Json := [("error", JV (JStr err))].

Definition denied_body (err msg : string) : Json :=
  [("error", JV (JStr err)); ("message", JV (JStr msg))].

Section UsersController.
Context {Body ZodError : Type} {schemas : Validations Body ZodError}
        {service : UsersService}.

Definition fetchUserById (req : Req Body) : M unit :=
  try_catch
    (logger_info ("Getting user by id: " +:+ params_id req);;
     match userIdSchema_safeParse (params_id req) with
     | inl err => res_status_json 400 (validation_failed (formatValidationError err))
     | inr id =>
         let* user := getUserById id in
         logger_info ("User " +:+ js_toString (js_get user "email")
                      +:+ " retrieved successfully");;
         res_json [("message", JV (JStr "User retrieved successfully"));
                   ("user", JO user)]
     end)
    (fun e =>
       logger_error ("Error fetching user by id: " +:+ err_message e) None;;
       if bool_decide (err_message e = "User not found")
       then res_status_json 404 (error_body "User not found")
       else ret tt).

(** The [returning] projection of [updateUser]. *)
Definition updated_view (r : UserRow) : JsObj :=
  {[ "id" := JNum (u_id r);
     "email" := JStr (u_email r);
     "name" := JStr (u_name r);
     "role" := JStr (u_role r);
     "created_at" := JNum (u_created_at r);
     "updated_at" := JNum (u_updated_at r) ]}.

Definition updateUser (id : Z) (updates : JsObj) : M JsObj :=
  try_catch
    (let* existingUser := getUserById id in
     (if truthy (js_get updates "email")
         && strict_ne (js_get updates "email") (js_get existingUser "email")
      then
        let* rows := db_select_users_where_email (js_get updates "email") in
        match head rows with
        | Some emailExists => throw (Error "Email already exists")
        | None => ret tt
        end
      else ret tt);;
     let* w := get_world in
     let updateData := <["updated_at" := JNum (now w)]> updates in
     let* rows := db_update_users updateData id in
     match head (map updated_view rows) with
     | None =>
         throw (mkError "TypeError"
                  "Cannot read properties of undefined (reading 'email')")
     | Some updatedUser =>
         logger_info ("User " +:+ js_toString (js_get updatedUser "email")
                      +:+ " updated successfully");;
         ret updatedUser
     end)
    (fun e =>
       logger_error ("Error updating user " +:+ pretty id +:+ ":") (Some e);;
       throw e).

(** The part of [updateUserById] after the ownership check: the role guard,
    the removal of [role], and the update itself. *)
Definition updateUserById_role_stage (u : JsObj) (id : Z) (updates : JsObj) : M unit :=
  if truthy (js_get updates "role") && strict_ne (js_get u "role") (JStr "admin")
  then res_status_json 403
         (denied_body "Access denied" "Only administrators can change user roles")
  else
    let updates :=
      if strict_ne (js_get u "role") (JStr "admin")
      then delete "role" updates
      else updates in
    let* updatedUser := updateUser id updates in
    logger_info ("User " +:+ js_toString (js_get updatedUser "email")
                 +:+ " updated successfully");;
    res_json [("message", JV (JStr "User updated successfully"));
              ("user", JO updatedUser)].

(** The [catch] block of [updateUserById]. *)
Definition updateUserById_catch (e : JsError) : M unit :=
  logger_error ("Error updating user: " +:+ err_message e) None;;
  if bool_decide (err_message e = "User not found")
  then res_status_json 404 (error_body "User not found")
  else if bool_decide (err_message e = "Email already exists")
  then res_status_json 409 (error_body "Email already exists")
  else throw (Error "Error updating user").

Definition updateUserById (req : Req Body) : M unit :=
  try_catch
    (logger_info ("Updating user: " +:+ params_id req);;
     match userIdSchema_safeParse (params_id req) with
     | inl err => res_status_json 400 (validation_failed (formatValidationError err))
     | inr id =>
         match updateUserSchema_safeParse (body req) with
         | inl err =>
             res_status_json 400 (validation_failed (formatValidationError err))
         | inr updates =>
             match user req with
             | None =>
                 res_status_json 401
                   (denied_body "Authentication required"
                      "You must be logged in to update user information")
             | Some u =>
                 if strict_ne (js_get u "role") (JStr "admin")
                    && strict_ne (js_get u "id") (JNum id)
                 then res_status_json 403
                        (denied_body "Access denied"
                           "You can only update your own information")
                 else updateUserById_role_stage u id updates
             end
         end
     end)
    updateUserById_catch.

Definition deleteUserById (req : Req Body) : M unit :=
  try_catch
    (logger_info ("Deleting user: " +:+ params_id req);;
     match userIdSchema_safeParse (params_id req) with
     | inl err => res_status_json 400 (validation_failed (formatValidationError err))
     | inr id =>
         match user req with
         | None =>
             res_status_json 401
               (denied_body "Authentication required"
                  "You must be logged in to delete users")
         | Some u =>
             if strict_ne (js_get u "role") (JStr "admin")
             then res_status_json 403
                    (denied_body "Access denied" "Only administrators can delete users")
             else if bool_decide (js_get u "id" = JNum id)
             then res_status_json 403
                    (denied_body "Operation denied" "You cannot delete your own account")
             else
               let* deletedUser := deleteUser id in
               logger_info ("User " +:+ js_toString (js_get deletedUser "email")
                            +:+ " deleted successfully");;
               res_json [("message", JV (JStr "User deleted successfully"));
                         ("user", JO deletedUser)]
         end
     end)
    (fun e =>
       logger_error ("Error deleting user: " +:+ err_message e) None;;
       if bool_decide (err_message e = "User not found")
       then res_status_json 404 (error_body "User not found")
       else throw (Error "Error deleting user")).
End UsersController.

(* ===================================================================== *)
(** ** Sample collaborators

    Small executable stand-ins for the packages and modules the sources
    import, used to run the handlers on concrete requests. *)
(* ===================================================================== *)

Module Sample.

(** A salted-hash stand-in: the hash is the cost-tagged secret. *)
#[local] Instance bcrypt : Bcrypt := {|
  bcrypt_hash p cost := inr ("$2b$" +:+ pretty cost +:+ "$" +:+ p);
  bcrypt_compare p h := inr (bool_decide (h = "$2b$10$" +:+ p))
|}.

(** A hashing backend that always fails. *)
#[local] Instance bcrypt_broken : Bcrypt := {|
  bcrypt_hash _ _ := inl (Error "data and salt arguments required");
  bcrypt_compare _ _ := inl (Error "data and hash arguments required")
|}.

(** Decimal digits only, as a positive number. *)
Fixpoint digits (s : string) (acc : Z) : option Z :=
  match s with
  | "" => Some acc
  | String c rest =>
      let d := Z.of_nat (Ascii.nat_of_ascii c) - 48 in
      if (0 <=? d) && (d <=? 9) then digits rest (10 * acc + d) else None
  end.

Definition parse_id (s : string) : string + Z :=
  match s with
  | "" => inl "ID must be a valid number"
  | _ =>
      match digits s 0 with
      | Some n => if 0 <? n then inr n else inl "ID must be a positive number"
      | None => inl "ID must be a valid number"
      end
  end.

#[local] Instance schemas : Validations JsObj string := {|
  userIdSchema_safeParse := parse_id;
  updateUserSchema_safeParse b := inr b;
  formatValidationError e := JStr e
|}.

Definition row_view (r : UserRow) : JsObj :=
  {[ "id" := JNum (u_id r);
     "name" := JStr (u_name r);
     "email" := JStr (u_email r);
     "role" := JStr (u_role r);
     "created_at" := JNum (u_created_at r);
     "updated_at" := JNum (u_updated_at r) ]}.

Definition find_user (i : Z) : M JsObj :=
  fun w =>
    match head (filter (fun r => u_id r = i) (users w)) with
    | Some r => (Fulfilled (row_view r), w)
    | None => (Rejected (Error "User not found"), w)
    end.

Definition remove_user (i : Z) : M JsObj :=
  let* u := find_user i in
  modify (fun w => with_users (filter (fun r => u_id r <> i) (users w)) w);;
  ret u.

(** A users service over the in-memory table. *)
#[local] Instance service : UsersService := {|
  getUserById := find_user;
  deleteUser := remove_user
|}.

(** A users service whose store is unreachable. *)
Definition unreachable : JsError := Error "connect ECONNREFUSED 127.0.0.1:5432".

#[local] Instance service_down : UsersService := {|
  getUserById _ := throw unreachable;
  deleteUser _ := throw unreachable
|}.

(** A keyed tag over the expiry and the claims' text. *)
Definition hmac (secret : string) (b : Jsonwebtoken.Body string) : string :=
  secret +:+ "/" +:+ Jsonwebtoken.claims b +:+ "/" +:+ pretty (Jsonwebtoken.exp b).

Definition timespan (s : string) : option Z :=
  if bool_decide (s = "1d") then Some 86400
  else if bool_decide (s = "15m") then Some 900
  else None.

(** The token codec of [Jsonwebtoken] over this tag and timespan table. *)
Definition codec
  : JwtLib string (Jsonwebtoken.Wire string) (Jsonwebtoken.Body string) :=
  Jsonwebtoken.model hmac timespan.

(** Three tokens to present at clock 5000 under the default secret:
    unparsable text, a body signed with another secret, and a correctly
    signed body whose expiry has passed. *)
Definition malformed_token : Jsonwebtoken.Wire string :=
  Jsonwebtoken.Garbage "not.a.token".
Definition forged_token : Jsonwebtoken.Wire string :=
  let b := Jsonwebtoken.mkBody "id=1;role=admin" 4000 90400 in
  Jsonwebtoken.Compact b (hmac "guess" b).
Definition stale_token : Jsonwebtoken.Wire string :=
  let b := Jsonwebtoken.mkBody "id=1;role=user" 1000 5000 in
  Jsonwebtoken.Compact b (hmac "jwt_secret" b).

Definition alice : UserRow :=
  mkRow 1 "Alice" "a@x.com" "$2b$10$correct horse" "user" 1000 1000.
Definition root : UserRow :=
  mkRow 2 "Root" "root@x.com" "$2b$10$hunter2" "admin" 1000 1000.

Definition world0 : World := mkWorld [alice; root] 3 5000 [] fresh_res.
Definition empty_world : World := mkWorld [] 1 5000 [] fresh_res.

Definition as_user (r : UserRow) : JsObj :=
  {[ "id" := JNum (u_id r); "email" := JStr (u_email r); "role" := JStr (u_role r) ]}.

End Sample.

(** Schemas that also check the payload: a [role], when present, must be
    [user] or [admin]. *)
Module SampleStrict.

Definition parse_update (b : JsObj) : string + JsObj :=
  match b !! "role" with
  | None => inr b
  | Some v =>
      if bool_decide (v = JStr "user") || bool_decide (v = JStr "admin")
      then inr b
      else inl "Role must be user or admin"
  end.

#[local] Instance schemas : Validations JsObj string := {|
  userIdSchema_safeParse := Sample.parse_id;
  updateUserSchema_safeParse := parse_update;
  formatValidationError e := JStr e
|}.

End SampleStrict.

(* ===================================================================== *)
(** ** Frame conditions *)
(* ===================================================================== *)

(** The computation [c] leaves the observation [f] of the process state as
    it found it, whether it fulfils or rejects. *)
Definition preserves {A T : Type} (f : World -> T) (c : M A) : Prop :=
  forall w, f (snd (c w)) = f w.

(** A payload as the update schema lets it through: its properties are among
    [name], [email] and [role], and each holds a string. *)
Definition profile_payload (updates : JsObj) : Prop :=
  forall k v, updates !! k = Some v ->
    (k = "name" \/ k = "email" \/ k = "role") /\ exists s, v = JStr s.

(** What a request handler must not disturb when it refuses to act: the
    users table and the serial counter. *)
Definition table (w : World) : list UserRow * Z := (users w, next_id w).

(* ===================================================================== *)
(** * Properties *)
(* ===================================================================== *)

(** ** Session cookie attributes *)

Section CookieFacts.
Variable env : gmap string string.

Lemma getOptions_dom :
  dom (cookies_getOptions env) = {[ "httpOnly"; "secure"; "sameSite"; "maxAge" ]}.
Proof. unfold cookies_getOptions. rewrite !dom_insert_L, dom_singleton_L. set_solver. Qed.

Lemma spread_policy_wins (options : JsObj) (k : string) (v : JsVal) :
  cookies_getOptions env !! k = Some v ->
  spread options (cookies_getOptions env) !! k = Some v.
Proof. intros H. unfold spread. by apply lookup_union_Some_l. Qed.

Lemma spread_other_keys (options : JsObj) (k : string) :
  cookies_getOptions env !! k = None ->
  spread options (cookies_getOptions env) !! k = options !! k.
Proof. intros H. unfold spread. by rewrite lookup_union_r. Qed.
End CookieFacts.

(** What [cookies.getOptions] returns: exactly http-only true, same-site
    strict, a max-age of fifteen minutes in milliseconds and [secure], which
    is true exactly when [NODE_ENV] is [production]; every attribute other
    than [secure] is the same in any two environments. *)
Lemma getOptions_policy (env env' : gmap string string) :
  cookies_getOptions env !! "httpOnly" = Some (JBool true)
  /\ cookies_getOptions env !! "sameSite" = Some (JStr "strict")
  /\ cookies_getOptions env !! "maxAge" = Some (JNum 900000)
  /\ cookies_getOptions env !! "secure"
     = Some (JBool (bool_decide (env !! "NODE_ENV" = Some "production")))
  /\ (cookies_getOptions env !! "secure" = Some (JBool true)
      <-> env !! "NODE_ENV" = Some "production")
  /\ dom (cookies_getOptions env) = {[ "httpOnly"; "secure"; "sameSite"; "maxAge" ]}
  /\ delete "secure" (cookies_getOptions env) = delete "secure" (cookies_getOptions env').
Proof.
  split; [reflexivity|]. split; [reflexivity|]. split; [reflexivity|].
  split; [reflexivity|]. split; [split|]; [| |split].
  - unfold cookies_getOptions. rewrite lookup_insert_ne by done.
    rewrite lookup_insert_eq. intros [= Hb]. by apply bool_decide_eq_true in Hb.
  - intros H. unfold cookies_getOptions. rewrite lookup_insert_ne by done.
    rewrite lookup_insert_eq. by rewrite (bool_decide_eq_true_2 _ H).
  - apply getOptions_dom.
  - unfold cookies_getOptions.
    rewrite !(delete_insert_ne _ "secure") by done.
    rewrite !delete_insert_eq. reflexivity.
Qed.

(** C8: in every environment and for every options argument of the caller,
    [cookies.set] hands [res.cookie] attributes in which http-only is true,
    same-site is strict, max-age is fifteen minutes in milliseconds and
    [secure] is true exactly when [NODE_ENV] is [production]. The four are
    one policy, read from [cookies.getOptions] alone: a different options
    argument in the same environment gives the same four values, and a
    different environment with the same options changes no attribute other
    than [secure]. *)
Theorem C8_cookie_policy
    (env env' : gmap string string) (name value : string) (options options' : JsObj)
    (w : World) :
  exists attrs attrs_o attrs_e : JsObj,
    cookies_set env name value options w
    = (Fulfilled tt,
       with_res (mkRes (statusCode (res w)) (sent (res w))
                   (cookie_calls (res w) ++ [SetCookie name value attrs])) w)
    /\ cookies_set env name value options' w
       = (Fulfilled tt,
          with_res (mkRes (statusCode (res w)) (sent (res w))
                      (cookie_calls (res w) ++ [SetCookie name value attrs_o])) w)
    /\ cookies_set env' name value options w
       = (Fulfilled tt,
          with_res (mkRes (statusCode (res w)) (sent (res w))
                      (cookie_calls (res w) ++ [SetCookie name value attrs_e])) w)
    /\ attrs !! "httpOnly" = Some (JBool true)
    /\ attrs !! "sameSite" = Some (JStr "strict")
    /\ attrs !! "maxAge" = Some (JNum 900000)
    /\ attrs !! "secure"
       = Some (JBool (bool_decide (env !! "NODE_ENV" = Some "production")))
    /\ (attrs !! "secure" = Some (JBool true) <-> env !! "NODE_ENV" = Some "production")
    /\ attrs_o !! "httpOnly" = attrs !! "httpOnly"
    /\ attrs_o !! "sameSite" = attrs !! "sameSite"
    /\ attrs_o !! "maxAge" = attrs !! "maxAge"
    /\ attrs_o !! "secure" = attrs !! "secure"
    /\ delete "secure" attrs_e = delete "secure" attrs
    /\ attrs_e !! "secure"
       = Some (JBool (bool_decide (env' !! "NODE_ENV" = Some "production"))).
Proof.
  destruct (getOptions_policy env env') as (Hh & Hs & Hm & Hsec & Hiff & _ & Hdel).
  exists (spread options (cookies_getOptions env)),
         (spread options' (cookies_getOptions env)),
         (spread options (cookies_getOptions env')).
  split; [reflexivity|]. split; [reflexivity|]. split; [reflexivity|].
  rewrite !(spread_policy_wins env options _ _ Hh), !(spread_policy_wins env options _ _ Hs),
    !(spread_policy_wins env options _ _ Hm), !(spread_policy_wins env options _ _ Hsec).
  rewrite !(spread_policy_wins env options' _ _ Hh), !(spread_policy_wins env options' _ _ Hs),
    !(spread_policy_wins env options' _ _ Hm), !(spread_policy_wins env options' _ _ Hsec).
  split; [reflexivity|]. split; [reflexivity|]. split; [reflexivity|].
  split; [reflexivity|]. split.
  { split.
    - intros [= Hb]. by apply bool_decide_eq_true in Hb.
    - intros H. by rewrite (bool_decide_eq_true_2 _ H). }
  split; [reflexivity|]. split; [reflexivity|]. split; [reflexivity|].
  split; [reflexivity|]. split.
  - unfold spread. rewrite !delete_union. by rewrite Hdel.
  - by apply spread_policy_wins.
Qed.

Lemma spread_difference (options policy : JsObj) :
  spread options policy ∖ policy = options ∖ policy.
Proof.
  apply map_eq. intros k. unfold spread.
  rewrite !lookup_difference.
  destruct (policy !! k) eqn:Hk; [done|]. by rewrite lookup_union_r.
Qed.

(** C9 as stated fails: a caller-supplied [path] reaches [res.cookie], so the
    attributes applied are not the set [cookies.getOptions] returns and they
    differ from those applied when no options are passed. *)
Lemma C9_other_attributes_pass_through :
  cookies_set ∅ "token" "t" {[ "path" := JStr "/admin" ]} Sample.empty_world
  = (Fulfilled tt,
     with_res (mkRes 200 None
                 [SetCookie "token" "t"
                    (<["path" := JStr "/admin"]> (cookies_getOptions ∅))])
              Sample.empty_world)
  /\ cookies_set ∅ "token" "t" ∅ Sample.empty_world
     = (Fulfilled tt,
        with_res (mkRes 200 None [SetCookie "token" "t" (cookies_getOptions ∅)])
                 Sample.empty_world)
  /\ (<["path" := JStr "/admin"]> (cookies_getOptions ∅) : JsObj) !! "path"
     = Some (JStr "/admin")
  /\ cookies_getOptions ∅ !! "path" = None
  /\ bool_decide ((<["path" := JStr "/admin"]> (cookies_getOptions ∅) : JsObj)
                  = cookies_getOptions ∅) = false.
Proof. repeat split; vm_compute; reflexivity. Qed.

(** C9, amended: whatever options a caller passes to [cookies.set] or
    [cookies.clear], the attributes handed to the response carry for
    [httpOnly], [secure], [sameSite] and [maxAge] the values of
    [cookies.getOptions] (a caller's values for these four are overridden),
    and every other attribute the caller supplied is passed through
    unchanged. *)
Theorem C9_policy_attributes_override
    (env : gmap string string) (name value : string) (options : JsObj) (w : World) :
  exists attrs : JsObj,
    cookies_set env name value options w
    = (Fulfilled tt,
       with_res (mkRes (statusCode (res w)) (sent (res w))
                   (cookie_calls (res w) ++ [SetCookie name value attrs])) w)
    /\ cookies_clear env name options w
       = (Fulfilled tt,
          with_res (mkRes (statusCode (res w)) (sent (res w))
                      (cookie_calls (res w) ++ [ClearCookie name attrs])) w)
    /\ attrs !! "httpOnly" = cookies_getOptions env !! "httpOnly"
    /\ attrs !! "secure" = cookies_getOptions env !! "secure"
    /\ attrs !! "sameSite" = cookies_getOptions env !! "sameSite"
    /\ attrs !! "maxAge" = cookies_getOptions env !! "maxAge"
    /\ attrs ∖ cookies_getOptions env = options ∖ cookies_getOptions env.
Proof.
  exists (spread options (cookies_getOptions env)).
  split; [reflexivity|]. split; [reflexivity|].
  repeat split.
  1-4: (erewrite spread_policy_wins; [reflexivity|reflexivity]).
  apply spread_difference.
Qed.

(** ** Token codec wrapper *)

Section JwtFacts.
Context {Payload Token Decoded : Type} {lib : JwtLib Payload Token Decoded}.
Variable env : gmap string string.

Lemma jwtToken_verify_ok (token : Token) (w : World) (d : Decoded) :
  jwt_verify token (JWT_SECRET env) (now w) = inr d ->
  jwtToken_verify env token w = (Fulfilled d, w).
Proof. intros H. unfold jwtToken_verify, try_catch, bind, get_world. by rewrite H. Qed.

Lemma jwtToken_verify_fails (token : Token) (w : World) (cause : JsError) :
  jwt_verify token (JWT_SECRET env) (now w) = inl cause ->
  jwtToken_verify env token w
  = (Rejected (Error "Failed to verify token"),
     with_log (log w ++ [mkLog LError "Failed to verify token" (Some cause)]) w).
Proof. intros H. unfold jwtToken_verify, try_catch, bind, get_world. by rewrite H. Qed.

Lemma jwtToken_sign_ok (payload : Payload) (w : World) (t : Token) :
  jwt_sign payload (JWT_SECRET env) (JWT_EXPIRY env) (now w) = inr t ->
  jwtToken_sign env payload w = (Fulfilled t, w).
Proof. intros H. unfold jwtToken_sign, try_catch, bind, get_world. by rewrite H. Qed.
End JwtFacts.

(** C4: whenever the underlying verification fails, for whatever cause (bad
    signature, malformed structure, expiry), [jwtToken.verify] throws the
    one error [Failed to verify token], which does not depend on the cause;
    the cause itself is written to the error log and nothing else in the
    process state changes. *)
Theorem C4_verify_failure_uniform
    {Payload Token Decoded : Type} {lib : JwtLib Payload Token Decoded}
    (env : gmap string string) (token : Token) (w : World) (cause : JsError) :
  jwt_verify token (JWT_SECRET env) (now w) = inl cause ->
  fst (jwtToken_verify env token w) = Rejected (Error "Failed to verify token")
  /\ log (snd (jwtToken_verify env token w))
     = (log w ++ [mkLog LError "Failed to verify token" (Some cause)])%list
  /\ snd (jwtToken_verify env token w)
     = with_log (log (snd (jwtToken_verify env token w))) w.
Proof.
  intros H. rewrite (jwtToken_verify_fails env token w cause H). by repeat split.
Qed.

Lemma C4_verify_failure_uniform_witness :
  (fst (jwtToken_verify (lib := Sample.codec) ∅ Sample.malformed_token Sample.world0)
   = Rejected (Error "Failed to verify token")
   /\ log (snd (jwtToken_verify (lib := Sample.codec) ∅ Sample.malformed_token
                  Sample.world0))
      = [mkLog LError "Failed to verify token" (Some Jsonwebtoken.MalformedError)])
  /\ (fst (jwtToken_verify (lib := Sample.codec) ∅ Sample.forged_token Sample.world0)
      = Rejected (Error "Failed to verify token")
      /\ log (snd (jwtToken_verify (lib := Sample.codec) ∅ Sample.forged_token
                     Sample.world0))
         = [mkLog LError "Failed to verify token" (Some Jsonwebtoken.SignatureError)])
  /\ (fst (jwtToken_verify (lib := Sample.codec) ∅ Sample.stale_token Sample.world0)
      = Rejected (Error "Failed to verify token")
      /\ log (snd (jwtToken_verify (lib := Sample.codec) ∅ Sample.stale_token
                     Sample.world0))
         = [mkLog LError "Failed to verify token" (Some Jsonwebtoken.TokenExpiredError)]).
Proof.
  split; [|split].
  - destruct (C4_verify_failure_uniform (lib := Sample.codec)
                ∅ Sample.malformed_token Sample.world0 Jsonwebtoken.MalformedError)
      as (H1 & H2 & _); [reflexivity|]. split; [exact H1|exact H2].
  - destruct (C4_verify_failure_uniform (lib := Sample.codec)
                ∅ Sample.forged_token Sample.world0 Jsonwebtoken.SignatureError)
      as (H1 & H2 & _); [vm_compute; reflexivity|]. split; [exact H1|exact H2].
  - destruct (C4_verify_failure_uniform (lib := Sample.codec)
                ∅ Sample.stale_token Sample.world0 Jsonwebtoken.TokenExpiredError)
      as (H1 & H2 & _); [vm_compute; reflexivity|]. split; [exact H1|exact H2].
Defined.

Section CodecRoundTrip.
Import Jsonwebtoken.
Context {C : Type}.
Variable hmac : string -> Body C -> string.
Variable timespan : string -> option Z.

Lemma verify_signed (payload : C) (secret expiresIn : string) (ttl t0 t : Z) :
  timespan expiresIn = Some ttl ->
  exists tok,
    sign hmac timespan payload secret expiresIn t0 = inr tok
    /\ verify hmac tok secret t
       = if t <? t0 + ttl then inr (mkBody payload t0 (t0 + ttl))
         else inl TokenExpiredError.
Proof.
  intros Httl. unfold sign. rewrite Httl. eexists. split; [reflexivity|].
  unfold verify. rewrite bool_decide_eq_true_2 by reflexivity. simpl.
  destruct (Z.leb_spec (t0 + ttl) t), (Z.ltb_spec t (t0 + ttl)); try lia; reflexivity.
Qed.
End CodecRoundTrip.

(** C6: with the configured time-to-live [ttl], signing claims at instant
    [t0] yields a token whose verification at instant [t] returns the
    original claims (with issued-at [t0] and expiry [t0 + ttl]) when
    [t < t0 + ttl], and otherwise, in particular at [t = t0 + ttl] exactly,
    fails with [Failed to verify token], the expiry cause going to the log. *)
Theorem C6_verify_sign_until_expiry
    {C : Type} (hmac : string -> Jsonwebtoken.Body C -> string)
    (timespan : string -> option Z) (env : gmap string string)
    (payload : C) (ttl : Z) (w0 w : World) :
  timespan (JWT_EXPIRY env) = Some ttl ->
  exists tok,
    jwtToken_sign (lib := Jsonwebtoken.model hmac timespan) env payload w0
    = (Fulfilled tok, w0)
    /\ jwtToken_verify (lib := Jsonwebtoken.model hmac timespan) env tok w
       = (if now w <? now w0 + ttl
          then (Fulfilled (Jsonwebtoken.mkBody payload (now w0) (now w0 + ttl)), w)
          else (Rejected (Error "Failed to verify token"),
                with_log (log w ++ [mkLog LError "Failed to verify token"
                                      (Some Jsonwebtoken.TokenExpiredError)]) w))
    /\ ((exists d, fst (jwtToken_verify (lib := Jsonwebtoken.model hmac timespan) env tok w)
                   = Fulfilled d /\ Jsonwebtoken.claims d = payload)
        <-> now w < now w0 + ttl).
Proof.
  intros Httl.
  destruct (verify_signed hmac timespan payload (JWT_SECRET env) (JWT_EXPIRY env)
              ttl (now w0) (now w) Httl) as (tok & Hs & Hv).
  exists tok. split.
  { by apply (jwtToken_sign_ok (lib := Jsonwebtoken.model hmac timespan)). }
  assert (Hrun :
    jwtToken_verify (lib := Jsonwebtoken.model hmac timespan) env tok w
    = (if now w <? now w0 + ttl
       then (Fulfilled (Jsonwebtoken.mkBody payload (now w0) (now w0 + ttl)), w)
       else (Rejected (Error "Failed to verify token"),
             with_log (log w ++ [mkLog LError "Failed to verify token"
                                   (Some Jsonwebtoken.TokenExpiredError)]) w))).
  { destruct (Z.ltb_spec (now w) (now w0 + ttl)).
    - by apply (jwtToken_verify_ok (lib := Jsonwebtoken.model hmac timespan)).
    - by apply (jwtToken_verify_fails (lib := Jsonwebtoken.model hmac timespan)). }
  split; [exact Hrun|].
  rewrite Hrun. destruct (Z.ltb_spec (now w) (now w0 + ttl)); simpl; split.
  - done.
  - intros _. by eexists.
  - intros (d & Hd & _). discriminate.
  - lia.
Qed.

Lemma C6_verify_sign_until_expiry_witness :
  exists tok,
    jwtToken_sign (lib := Sample.codec) ∅ "id=1;role=user" Sample.world0
    = (Fulfilled tok, Sample.world0)
    /\ fst (jwtToken_verify (lib := Sample.codec) ∅ tok
              (mkWorld [] 1 (5000 + 86399) [] fresh_res))
       = Fulfilled (Jsonwebtoken.mkBody "id=1;role=user" 5000 91400)
    /\ fst (jwtToken_verify (lib := Sample.codec) ∅ tok
              (mkWorld [] 1 (5000 + 86400) [] fresh_res))
       = Rejected (Error "Failed to verify token").
Proof.
  assert (Httl : Sample.timespan (JWT_EXPIRY ∅) = Some 86400)
    by (vm_compute; reflexivity).
  unfold Sample.codec.
  destruct (C6_verify_sign_until_expiry Sample.hmac Sample.timespan ∅
              "id=1;role=user" 86400 Sample.world0
              (mkWorld [] 1 (5000 + 86399) [] fresh_res) Httl)
    as (tok & Hs & Hv & _).
  exists tok. split; [exact Hs|]. split.
  - rewrite Hv. reflexivity.
  - destruct (C6_verify_sign_until_expiry Sample.hmac Sample.timespan ∅
                "id=1;role=user" 86400 Sample.world0
                (mkWorld [] 1 (5000 + 86400) [] fresh_res) Httl)
      as (tok' & Hs' & Hv' & _).
    assert (tok' = tok) as -> by congruence.
    rewrite Hv'. reflexivity.
Defined.

(** ** Credential verifier *)

Ltac run_js :=
  unfold try_catch, bind, ret, throw, lift_result, get_world, modify,
    logger_info, logger_error; simpl.

Lemma head_take_1 {A} (l : list A) : head (take 1%nat l) = head l.
Proof. by destruct l. Qed.

Lemma take_1_nonempty {A} (l : list A) :
  (0 <? length (take 1%nat l))%nat = match head l with Some _ => true | None => false end.
Proof. by destruct l. Qed.

Section AuthFacts.
Context {bcrypt : Bcrypt}.

(** The identity handed back never carries the stored hash. *)
Lemma identity_of_no_password (r : UserRow) : identity_of r !! "password" = None.
Proof. reflexivity. Qed.

Lemma authenticateUser_unknown (email password : string) (w : World) :
  head (filter (fun r => u_email r = email) (users w)) = None ->
  authenticateUser email password w
  = (Rejected (Error "Error authenticating user"),
     with_log (log w ++ [mkLog LError
                           "Error authenticating user: Error: User not found" None]) w).
Proof.
  intros H. unfold authenticateUser, db_select_users_by_email. run_js.
  rewrite head_take_1, H. reflexivity.
Qed.

Lemma authenticateUser_wrong_secret (email password : string) (w : World) (r : UserRow) :
  head (filter (fun r => u_email r = email) (users w)) = Some r ->
  bcrypt_compare password (u_password r) = inr false ->
  authenticateUser email password w
  = (Rejected (Error "Error authenticating user"),
     with_log (log w ++ [mkLog LError
                           "Error authenticating user: Error: Invalid password" None]) w).
Proof.
  intros H Hc. unfold authenticateUser, db_select_users_by_email, comparePassword. run_js.
  rewrite head_take_1, H. simpl. rewrite Hc. reflexivity.
Qed.

Lemma authenticateUser_ok (email password : string) (w : World) (r : UserRow) :
  head (filter (fun r => u_email r = email) (users w)) = Some r ->
  bcrypt_compare password (u_password r) = inr true ->
  authenticateUser email password w
  = (Fulfilled (identity_of r),
     with_log (log w ++ [mkLog LInfo
                           ("User " +:+ u_email r +:+ " authenticated successfully")
                           None]) w).
Proof.
  intros H Hc. unfold authenticateUser, db_select_users_by_email, comparePassword. run_js.
  rewrite head_take_1, H. simpl. rewrite Hc. reflexivity.
Qed.

(** Whatever goes wrong inside [authenticateUser], its caller sees the
    same error. *)
Lemma authenticateUser_rejects_uniformly (email password : string) (w : World) :
  match fst (authenticateUser email password w) with
  | Fulfilled _ => True
  | Rejected e => e = Error "Error authenticating user"
  end.
Proof.
  unfold authenticateUser, try_catch.
  match goal with |- context [bind ?c ?k w] => destruct (bind c k w) as [[o|e] w'] end;
    simpl; [exact I|reflexivity].
Qed.

Lemma createUser_taken (name email password : string) (role : option string)
    (w : World) (r : UserRow) :
  head (filter (fun r => u_email r = email) (users w)) = Some r ->
  createUser name email password role w
  = (Rejected (Error "Error creating user"),
     with_log (log w ++ [mkLog LError "Error creating user"
                           (Some (Error "User already exists"))]) w).
Proof.
  intros H. unfold createUser, db_select_users_by_email. run_js.
  rewrite take_1_nonempty, H. reflexivity.
Qed.

Lemma createUser_fresh (name email password : string) (role : option string)
    (w : World) (h : string) :
  head (filter (fun r => u_email r = email) (users w)) = None ->
  bcrypt_hash password 10 = inr h ->
  let row := mkRow (next_id w) name email h (default users_role_default role)
               (now w) (now w) in
  createUser name email password role w
  = (Fulfilled (Some (identity_of row)),
     mkWorld (users w ++ [row]) (next_id w + 1) (now w)
       (log w ++ [mkLog LInfo ("User " +:+ email +:+ " created successfully") None])
       (res w)).
Proof.
  intros H Hh row. unfold createUser, db_select_users_by_email, hashPassword,
    db_insert_users. run_js.
  rewrite take_1_nonempty, H. simpl. rewrite Hh. reflexivity.
Qed.

Lemma createUser_rejects_uniformly (name email password : string)
    (role : option string) (w : World) :
  match fst (createUser name email password role w) with
  | Fulfilled _ => True
  | Rejected e => e = Error "Error creating user"
  end.
Proof.
  unfold createUser, try_catch.
  match goal with |- context [bind ?c ?k w] => destruct (bind c k w) as [[o|e] w'] end;
    simpl; [exact I|reflexivity].
Qed.
End AuthFacts.

(** C1, at the inputs where the code departs from it: signing in with an
    unknown identifier and signing in with a wrong secret both reject with
    the same error [Error authenticating user]; the kinds [User not found]
    and [Invalid password] appear only in the log. *)
Theorem C1_authenticate_failure_kinds_collapse :
  authenticateUser (bcrypt := Sample.bcrypt) "nobody@x.com" "pw" Sample.world0
  = (Rejected (Error "Error authenticating user"),
     with_log [mkLog LError "Error authenticating user: Error: User not found" None]
       Sample.world0)
  /\ authenticateUser (bcrypt := Sample.bcrypt) "a@x.com" "wrong" Sample.world0
     = (Rejected (Error "Error authenticating user"),
        with_log [mkLog LError "Error authenticating user: Error: Invalid password" None]
          Sample.world0)
  /\ fst (authenticateUser (bcrypt := Sample.bcrypt) "nobody@x.com" "pw" Sample.world0)
     = fst (authenticateUser (bcrypt := Sample.bcrypt) "a@x.com" "wrong" Sample.world0)
  /\ fst (authenticateUser (bcrypt := Sample.bcrypt) "a@x.com" "correct horse"
            Sample.world0)
     = Fulfilled {[ "id" := JNum 1; "name" := JStr "Alice"; "email" := JStr "a@x.com";
                    "role" := JStr "user"; "created_at" := JNum 1000 ]}.
Proof. repeat split; vm_compute; reflexivity. Qed.

(** C5, at the inputs where the code departs from it: registering an
    identifier that is already taken rejects with [Error creating user], the
    very error a failure of the hashing backend produces; [User already
    exists] appears only in the log, and the table is left as it was. A
    fresh identifier is hashed, stored and returned with the default role. *)
Theorem C5_register_already_exists_collapses :
  createUser (bcrypt := Sample.bcrypt) "Al" "a@x.com" "pw" None Sample.world0
  = (Rejected (Error "Error creating user"),
     with_log [mkLog LError "Error creating user" (Some (Error "User already exists"))]
       Sample.world0)
  /\ fst (createUser (bcrypt := Sample.bcrypt_broken) "Bob" "b@x.com" "pw" None
            Sample.world0)
     = Rejected (Error "Error creating user")
  /\ fst (createUser (bcrypt := Sample.bcrypt) "Al" "a@x.com" "pw" None Sample.world0)
     = fst (createUser (bcrypt := Sample.bcrypt_broken) "Bob" "b@x.com" "pw" None
              Sample.world0)
  /\ createUser (bcrypt := Sample.bcrypt) "Bob" "b@x.com" "pw" None Sample.world0
     = (Fulfilled (Some {[ "id" := JNum 3; "name" := JStr "Bob";
                           "email" := JStr "b@x.com"; "role" := JStr "user";
                           "created_at" := JNum 5000 ]}),
        mkWorld [Sample.alice; Sample.root;
                 mkRow 3 "Bob" "b@x.com" "$2b$10$pw" "user" 5000 5000]
          4 5000 [mkLog LInfo "User b@x.com created successfully" None] fresh_res).
Proof. repeat split; vm_compute; reflexivity. Qed.

(** ** User handlers *)

Lemma strict_ne_true (a b : JsVal) : a <> b -> strict_ne a b = true.
Proof. intros H. unfold strict_ne. by rewrite bool_decide_eq_false_2. Qed.

Lemma strict_ne_false (a b : JsVal) : a = b -> strict_ne a b = false.
Proof. intros H. unfold strict_ne. by rewrite bool_decide_eq_true_2. Qed.

Lemma res_status_json_fresh (code : Z) (body : Json) (w : World) :
  sent (res w) = None ->
  res_status_json code body w
  = (Fulfilled tt, with_res (mkRes code (Some body) (cookie_calls (res w))) w).
Proof. intros H. unfold res_status_json. by rewrite H. Qed.

(** A handler's first statement is a log call, which cannot throw: the rest
    of the [try] block runs in the state with that line appended. *)
Lemma try_after_log {A} (msg : string) (c : M A) (h : JsError -> M A) (w : World) :
  try_catch (logger_info msg;; c) h w
  = try_catch c h (with_log (log w ++ [mkLog LInfo msg None]) w).
Proof. reflexivity. Qed.

Section HandlerFacts.
Context {Body ZodError : Type} {schemas : Validations Body ZodError}
        {service : UsersService}.

(** With no truthy [role] in the payload, a non-admin's update runs with
    the [role] property deleted. *)
Lemma role_stage_strips_falsy_role (u : JsObj) (id : Z) (updates : JsObj) :
  truthy (js_get updates "role") = false ->
  js_get u "role" <> JStr "admin" ->
  updateUserById_role_stage u id updates
  = (let* updatedUser := updateUser id (delete "role" updates) in
     logger_info ("User " +:+ js_toString (js_get updatedUser "email")
                  +:+ " updated successfully");;
     res_json [("message", JV (JStr "User updated successfully"));
               ("user", JO updatedUser)]).
Proof.
  intros Hr Hu. unfold updateUserById_role_stage.
  rewrite Hr, (strict_ne_true _ _ Hu). reflexivity.
Qed.

Lemma role_stage_rejects_truthy_role (u : JsObj) (id : Z) (updates : JsObj) (w : World) :
  truthy (js_get updates "role") = true ->
  js_get u "role" <> JStr "admin" ->
  sent (res w) = None ->
  updateUserById_role_stage u id updates w
  = (Fulfilled tt,
     with_res (mkRes 403
                 (Some (denied_body "Access denied"
                          "Only administrators can change user roles"))
                 (cookie_calls (res w))) w).
Proof.
  intros Hr Hu Hs. unfold updateUserById_role_stage.
  rewrite Hr, (strict_ne_true _ _ Hu). simpl. by apply res_status_json_fresh.
Qed.

(** The handler up to and including the ownership check. *)
Lemma updateUserById_ownership (req : Req Body) (id : Z) (updates u : JsObj) (w : World) :
  userIdSchema_safeParse (params_id req) = inr id ->
  updateUserSchema_safeParse (body req) = inr updates ->
  user req = Some u ->
  updateUserById req w
  = try_catch
      (if strict_ne (js_get u "role") (JStr "admin")
          && strict_ne (js_get u "id") (JNum id)
       then res_status_json 403
              (denied_body "Access denied" "You can only update your own information")
       else updateUserById_role_stage u id updates)
      updateUserById_catch
      (with_log (log w ++ [mkLog LInfo ("Updating user: " +:+ params_id req) None]) w).
Proof.
  intros Hid Hb Hu. unfold updateUserById.
  rewrite try_after_log, Hid, Hb, Hu. reflexivity.
Qed.
End HandlerFacts.

(** C7: for an authenticated non-admin requester, an update whose target id
    is the requester's own id passes the ownership check and continues with
    the role guard and the update; an update whose target id differs is
    answered 403 [You can only update your own information] and touches
    nothing but the log and the response. *)
Theorem C7_update_ownership_check
    {Body ZodError : Type} {schemas : Validations Body ZodError}
    {service : UsersService}
    (req : Req Body) (id : Z) (updates u : JsObj) (w : World) :
  userIdSchema_safeParse (params_id req) = inr id ->
  updateUserSchema_safeParse (body req) = inr updates ->
  user req = Some u ->
  js_get u "role" <> JStr "admin" ->
  sent (res w) = None ->
  updateUserById req w
  = if bool_decide (js_get u "id" = JNum id)
    then try_catch (updateUserById_role_stage u id updates) updateUserById_catch
           (with_log (log w ++ [mkLog LInfo ("Updating user: " +:+ params_id req) None]) w)
    else (Fulfilled tt,
          mkWorld (users w) (next_id w) (now w)
            (log w ++ [mkLog LInfo ("Updating user: " +:+ params_id req) None])
            (mkRes 403
               (Some (denied_body "Access denied"
                        "You can only update your own information"))
               (cookie_calls (res w)))).
Proof.
  intros Hid Hb Hu Hrole Hs.
  rewrite (updateUserById_ownership req id updates u w Hid Hb Hu).
  rewrite (strict_ne_true _ _ Hrole). simpl. unfold strict_ne.
  destruct (bool_decide (js_get u "id" = JNum id)); simpl; [reflexivity|].
  unfold try_catch. rewrite res_status_json_fresh by exact Hs. reflexivity.
Qed.

Lemma C7_update_ownership_check_witness :
  (fst (updateUserById (schemas := Sample.schemas) (service := Sample.service)
          (mkReq "1" {[ "name" := JStr "Al" ]} (Some (Sample.as_user Sample.alice)))
          Sample.world0) = Fulfilled tt
   /\ statusCode (res (snd (updateUserById (schemas := Sample.schemas)
                              (service := Sample.service)
                              (mkReq "1" {[ "name" := JStr "Al" ]}
                                 (Some (Sample.as_user Sample.alice)))
                              Sample.world0))) = 200
   /\ users (snd (updateUserById (schemas := Sample.schemas) (service := Sample.service)
                    (mkReq "1" {[ "name" := JStr "Al" ]}
                       (Some (Sample.as_user Sample.alice)))
                    Sample.world0))
      = [mkRow 1 "Al" "a@x.com" "$2b$10$correct horse" "user" 1000 5000; Sample.root])
  /\ updateUserById (schemas := Sample.schemas) (service := Sample.service)
       (mkReq "2" {[ "name" := JStr "Al" ]} (Some (Sample.as_user Sample.alice)))
       Sample.world0
     = (Fulfilled tt,
        mkWorld [Sample.alice; Sample.root] 3 5000
          [mkLog LInfo "Updating user: 2" None]
          (mkRes 403
             (Some (denied_body "Access denied"
                      "You can only update your own information")) [])).
Proof.
  split.
  - rewrite (C7_update_ownership_check (schemas := Sample.schemas)
               (service := Sample.service)
               (mkReq "1" {[ "name" := JStr "Al" ]} (Some (Sample.as_user Sample.alice)))
               1 {[ "name" := JStr "Al" ]} (Sample.as_user Sample.alice) Sample.world0);
      [ | reflexivity | reflexivity | reflexivity | vm_compute; discriminate | reflexivity ].
    repeat split; vm_compute; reflexivity.
  - rewrite (C7_update_ownership_check (schemas := Sample.schemas)
               (service := Sample.service)
               (mkReq "2" {[ "name" := JStr "Al" ]} (Some (Sample.as_user Sample.alice)))
               2 {[ "name" := JStr "Al" ]} (Sample.as_user Sample.alice) Sample.world0);
      [ | reflexivity | reflexivity | reflexivity | vm_compute; discriminate | reflexivity ].
    vm_compute. reflexivity.
Defined.

(** C2 as stated fails: a non-admin updating their own id with a payload
    that carries a role is answered 403 [Only administrators can change user
    roles]; nothing is stripped and no update is made, the name in the same
    payload included. *)
Lemma C2_role_payload_is_rejected :
  updateUserById (schemas := Sample.schemas) (service := Sample.service)
    (mkReq "1" {[ "name" := JStr "Al"; "role" := JStr "admin" ]}
       (Some (Sample.as_user Sample.alice)))
    Sample.world0
  = (Fulfilled tt,
     mkWorld [Sample.alice; Sample.root] 3 5000
       [mkLog LInfo "Updating user: 1" None]
       (mkRes 403
          (Some (denied_body "Access denied"
                   "Only administrators can change user roles")) [])).
Proof. vm_compute. reflexivity. Qed.

(** C2, amended: for an authenticated non-admin requester updating their own
    id, a validated payload with a truthy [role] property makes the handler
    answer 403 [Only administrators can change user roles]; the users table
    is not touched and the handler completes normally. *)
Theorem C2_nonadmin_role_update_forbidden
    {Body ZodError : Type} {schemas : Validations Body ZodError}
    {service : UsersService}
    (req : Req Body) (id : Z) (updates u : JsObj) (w : World) :
  userIdSchema_safeParse (params_id req) = inr id ->
  updateUserSchema_safeParse (body req) = inr updates ->
  user req = Some u ->
  js_get u "role" <> JStr "admin" ->
  js_get u "id" = JNum id ->
  truthy (js_get updates "role") = true ->
  sent (res w) = None ->
  updateUserById req w
  = (Fulfilled tt,
     mkWorld (users w) (next_id w) (now w)
       (log w ++ [mkLog LInfo ("Updating user: " +:+ params_id req) None])
       (mkRes 403
          (Some (denied_body "Access denied"
                   "Only administrators can change user roles"))
          (cookie_calls (res w)))).
Proof.
  intros Hid Hb Hu Hrole Hown Htr Hs.
  rewrite (updateUserById_ownership req id updates u w Hid Hb Hu).
  rewrite (strict_ne_false _ _ Hown), andb_false_r.
  unfold try_catch. rewrite role_stage_rejects_truthy_role; done.
Qed.

Lemma C2_nonadmin_role_update_forbidden_witness :
  updateUserById (schemas := Sample.schemas) (service := Sample.service)
    (mkReq "1" {[ "role" := JStr "user" ]} (Some (Sample.as_user Sample.alice)))
    Sample.world0
  = (Fulfilled tt,
     mkWorld [Sample.alice; Sample.root] 3 5000
       [mkLog LInfo "Updating user: 1" None]
       (mkRes 403
          (Some (denied_body "Access denied"
                   "Only administrators can change user roles")) [])).
Proof.
  apply (C2_nonadmin_role_update_forbidden (schemas := Sample.schemas)
           (service := Sample.service)
           (mkReq "1" {[ "role" := JStr "user" ]} (Some (Sample.as_user Sample.alice)))
           1 {[ "role" := JStr "user" ]} (Sample.as_user Sample.alice) Sample.world0);
    solve [ reflexivity | vm_compute; discriminate ].
Defined.

(** C3: a delete request from a requester whose role is admin and whose own
    id is the target id is answered 403 [You cannot delete your own
    account]; the delete service is not reached, so the users table is
    exactly as before, whatever the service would have done. *)
Theorem C3_admin_cannot_delete_self
    {Body ZodError : Type} {schemas : Validations Body ZodError}
    {service : UsersService}
    (req : Req Body) (id : Z) (u : JsObj) (w : World) :
  userIdSchema_safeParse (params_id req) = inr id ->
  user req = Some u ->
  js_get u "role" = JStr "admin" ->
  js_get u "id" = JNum id ->
  sent (res w) = None ->
  deleteUserById req w
  = (Fulfilled tt,
     mkWorld (users w) (next_id w) (now w)
       (log w ++ [mkLog LInfo ("Deleting user: " +:+ params_id req) None])
       (mkRes 403
          (Some (denied_body "Operation denied" "You cannot delete your own account"))
          (cookie_calls (res w)))).
Proof.
  intros Hid Hu Hrole Hown Hs. unfold deleteUserById.
  rewrite try_after_log, Hid, Hu.
  rewrite (strict_ne_false _ _ Hrole), (bool_decide_eq_true_2 _ Hown).
  unfold try_catch. rewrite res_status_json_fresh by exact Hs. reflexivity.
Qed.

Lemma C3_admin_cannot_delete_self_witness :
  deleteUserById (schemas := Sample.schemas) (service := Sample.service)
    (mkReq "2" (∅ : JsObj) (Some (Sample.as_user Sample.root))) Sample.world0
  = (Fulfilled tt,
     mkWorld [Sample.alice; Sample.root] 3 5000
       [mkLog LInfo "Deleting user: 2" None]
       (mkRes 403
          (Some (denied_body "Operation denied" "You cannot delete your own account"))
          []))
  /\ users (snd (deleteUserById (schemas := Sample.schemas) (service := Sample.service)
                   (mkReq "1" (∅ : JsObj) (Some (Sample.as_user Sample.root)))
                   Sample.world0))
     = [Sample.root].
Proof.
  split.
  - apply (C3_admin_cannot_delete_self (schemas := Sample.schemas)
             (service := Sample.service)
             (mkReq "2" (∅ : JsObj) (Some (Sample.as_user Sample.root)))
             2 (Sample.as_user Sample.root) Sample.world0); reflexivity.
  - vm_compute. reflexivity.
Defined.

(** C10: when the id parses and the lookup rejects with an error whose
    message is not [User not found], [fetchUserById] logs the error and
    completes normally without calling [res.status] or [res.json]: the
    response object is left exactly as the lookup left it, so an unsent
    response stays unsent. *)
Theorem C10_fetch_swallows_other_errors
    {Body ZodError : Type} {schemas : Validations Body ZodError}
    {service : UsersService}
    (req : Req Body) (id : Z) (e : JsError) (w w' : World) :
  userIdSchema_safeParse (params_id req) = inr id ->
  getUserById id
    (with_log (log w ++ [mkLog LInfo ("Getting user by id: " +:+ params_id req) None]) w)
  = (Rejected e, w') ->
  err_message e <> "User not found" ->
  fetchUserById req w
  = (Fulfilled tt,
     with_log (log w' ++ [mkLog LError ("Error fetching user by id: " +:+ err_message e)
                            None]) w')
  /\ res (snd (fetchUserById req w)) = res w'.
Proof.
  intros Hid Hget Hmsg.
  assert (Hrun : fetchUserById req w
    = (Fulfilled tt,
       with_log (log w' ++ [mkLog LError ("Error fetching user by id: " +:+ err_message e)
                              None]) w')).
  { unfold fetchUserById. rewrite try_after_log, Hid.
    unfold try_catch, bind at 1. rewrite Hget.
    unfold bind, logger_error, modify. simpl.
    rewrite (bool_decide_eq_false_2 _ Hmsg). reflexivity. }
  split; [exact Hrun|]. rewrite Hrun. reflexivity.
Qed.

Lemma C10_fetch_swallows_other_errors_witness :
  fetchUserById (schemas := Sample.schemas) (service := Sample.service_down)
    (mkReq "1" (∅ : JsObj) None) Sample.world0
  = (Fulfilled tt,
     mkWorld [Sample.alice; Sample.root] 3 5000
       [mkLog LInfo "Getting user by id: 1" None;
        mkLog LError "Error fetching user by id: connect ECONNREFUSED 127.0.0.1:5432" None]
       (mkRes 200 None []))
  /\ res (snd (fetchUserById (schemas := Sample.schemas) (service := Sample.service_down)
                 (mkReq "1" (∅ : JsObj) None) Sample.world0))
     = fresh_res.
Proof.
  apply (C10_fetch_swallows_other_errors (schemas := Sample.schemas)
           (service := Sample.service_down)
           (mkReq "1" (∅ : JsObj) None) 1 Sample.unreachable Sample.world0
           (with_log [mkLog LInfo "Getting user by id: 1" None] Sample.world0));
    [ reflexivity | reflexivity | vm_compute; discriminate ].
Defined.

(* ===================================================================== *)
(** * Further properties *)
(* ===================================================================== *)

(** ** Frame rules for the monad *)

Section Frame.
Context {T : Type} (f : World -> T).
Hypothesis f_log : forall l w, f (with_log l w) = f w.
Hypothesis f_res : forall r w, f (with_res r w) = f w.

Lemma preserves_ret {A} (a : A) : preserves f (ret a).
Proof. by intros w. Qed.

Lemma preserves_throw {A} (e : JsError) : preserves f (throw (A := A) e).
Proof. by intros w. Qed.

Lemma preserves_get_world : preserves f get_world.
Proof. by intros w. Qed.

Lemma preserves_lift_result {A} (r : JsError + A) : preserves f (lift_result r).
Proof. by destruct r; intros w. Qed.

Lemma preserves_bind {A B} (c : M A) (k : A -> M B) :
  preserves f c -> (forall a, preserves f (k a)) -> preserves f (bind c k).
Proof.
  intros Hc Hk w. unfold bind. specialize (Hc w).
  destruct (c w) as [[a|e] w']; simpl in *; [|exact Hc].
  by rewrite Hk.
Qed.

Lemma preserves_try_catch {A} (c : M A) (h : JsError -> M A) :
  preserves f c -> (forall e, preserves f (h e)) -> preserves f (try_catch c h).
Proof.
  intros Hc Hh w. unfold try_catch. specialize (Hc w).
  destruct (c w) as [[a|e] w']; simpl in *; [exact Hc|].
  by rewrite Hh.
Qed.

Lemma preserves_if {A} (b : bool) (c1 c2 : M A) :
  preserves f c1 -> preserves f c2 -> preserves f (if b then c1 else c2).
Proof. by destruct b. Qed.

Lemma preserves_logger_info (msg : string) : preserves f (logger_info msg).
Proof. intros w. apply f_log. Qed.

Lemma preserves_logger_error (msg : string) (e : option JsError) :
  preserves f (logger_error msg e).
Proof. intros w. apply f_log. Qed.

Lemma preserves_res_status_json (code : Z) (body : Json) :
  preserves f (res_status_json code body).
Proof.
  intros w. unfold res_status_json. destruct (sent (res w)); simpl; [done|apply f_res].
Qed.

Lemma preserves_res_json (body : Json) : preserves f (res_json body).
Proof. intros w. apply preserves_res_status_json. Qed.

Lemma preserves_select (e : string) : preserves f (db_select_users_by_email e).
Proof. by intros w. Qed.

Lemma preserves_select_where (v : JsVal) : preserves f (db_select_users_where_email v).
Proof. destruct v; try apply preserves_ret. apply preserves_select. Qed.
End Frame.

Lemma table_log (l : list LogEntry) (w : World) : table (with_log l w) = table w.
Proof. reflexivity. Qed.

Lemma table_res (r : Res) (w : World) : table (with_res r w) = table w.
Proof. reflexivity. Qed.

Lemma head_filter_snoc {A} (P : A -> Prop) `{!forall x, Decision (P x)} (l : list A) (x : A) :
  head (filter P l) = None -> P x -> head (filter P (l ++ [x])%list) = Some x.
Proof.
  intros Hh Hx. rewrite filter_app.
  destruct (filter P l); [|discriminate]. simpl.
  rewrite filter_cons. by rewrite decide_True.
Qed.

(** ** Credential verifier: registration and sign-in together *)

Section AuthMore.
Context {bcrypt : Bcrypt}.

Lemma createUser_hash_fails (name email password : string) (role : option string)
    (w : World) (e : JsError) :
  head (filter (fun r => u_email r = email) (users w)) = None ->
  bcrypt_hash password 10 = inl e ->
  createUser name email password role w
  = (Rejected (Error "Error creating user"),
     with_log ((log w ++ [mkLog LError "Error hashing password" (Some e)])
               ++ [mkLog LError "Error creating user"
                     (Some (Error "Error hashing password"))]) w).
Proof.
  intros Hh He. unfold createUser, db_select_users_by_email, hashPassword. run_js.
  rewrite take_1_nonempty, Hh. simpl. rewrite He. reflexivity.
Qed.

Lemma authenticateUser_compare_throws (email password : string) (w : World)
    (r : UserRow) (e : JsError) :
  head (filter (fun r => u_email r = email) (users w)) = Some r ->
  bcrypt_compare password (u_password r) = inl e ->
  authenticateUser email password w
  = (Rejected (Error "Error authenticating user"),
     with_log ((log w ++ [mkLog LError ("Error comparing password: " +:+ error_toString e)
                            None])
               ++ [mkLog LError "Error authenticating user: Error: Error comparing password"
                     None]) w).
Proof.
  intros Hh He. unfold authenticateUser, db_select_users_by_email, comparePassword. run_js.
  rewrite head_take_1, Hh. simpl. rewrite He. reflexivity.
Qed.

(** The three ways [createUser] can end, by the state of the table and the
    hashing backend. *)
Lemma createUser_cases (name email password : string) (role : option string) (w : World) :
  (exists r, head (filter (fun r => u_email r = email) (users w)) = Some r
             /\ fst (createUser name email password role w) = Rejected (Error "Error creating user")
             /\ table (snd (createUser name email password role w)) = table w)
  \/ (exists e, head (filter (fun r => u_email r = email) (users w)) = None
                /\ bcrypt_hash password 10 = inl e
                /\ fst (createUser name email password role w)
                   = Rejected (Error "Error creating user")
                /\ table (snd (createUser name email password role w)) = table w)
  \/ (exists h, head (filter (fun r => u_email r = email) (users w)) = None
                /\ bcrypt_hash password 10 = inr h
                /\ createUser name email password role w
                   = (Fulfilled (Some (identity_of
                        (mkRow (next_id w) name email h
                           (default users_role_default role) (now w) (now w)))),
                      mkWorld (users w ++ [mkRow (next_id w) name email h
                                             (default users_role_default role)
                                             (now w) (now w)])
                        (next_id w + 1) (now w)
                        (log w ++ [mkLog LInfo ("User " +:+ email +:+ " created successfully")
                                     None])
                        (res w))).
Proof.
  destruct (head (filter (fun r => u_email r = email) (users w))) as [r|] eqn:Hh.
  - left. exists r. rewrite (createUser_taken _ _ _ _ _ r Hh). by repeat split.
  - destruct (bcrypt_hash password 10) as [e|h] eqn:He.
    + right; left. exists e. rewrite (createUser_hash_fails _ _ _ _ _ e Hh He).
      by repeat split.
    + right; right. exists h. split; [done|]. split; [done|].
      by apply createUser_fresh.
Qed.
End AuthMore.

Lemma identity_of_dom (r : UserRow) :
  dom (identity_of r) = {[ "id"; "name"; "email"; "role"; "created_at" ]}.
Proof. unfold identity_of. rewrite !dom_insert_L, dom_singleton_L. set_solver. Qed.

(** X1: registration followed by sign-in. When the email is not yet in the
    table, the backend hashes the secret to [h] and accepts the secret
    against [h], [createUser] fulfils with an identity and [authenticateUser]
    on the resulting state, with the same email and secret, fulfils with that
    same identity; its email is the one registered and its role the one
    given, or the column default when none was given. *)
Theorem X1_register_then_authenticate
    {bcrypt : Bcrypt} (name email password : string) (role : option string)
    (h : string) (w : World) :
  head (filter (fun r => u_email r = email) (users w)) = None ->
  bcrypt_hash password 10 = inr h ->
  bcrypt_compare password h = inr true ->
  exists (ident : JsObj) (w1 : World),
    createUser name email password role w = (Fulfilled (Some ident), w1)
    /\ fst (authenticateUser email password w1) = Fulfilled ident
    /\ js_get ident "email" = JStr email
    /\ js_get ident "role" = JStr (default users_role_default role).
Proof.
  intros Hfree Hh Hc.
  pose proof (createUser_fresh name email password role w h Hfree Hh) as Hcreate.
  simpl in Hcreate. eexists _, _. split; [exact Hcreate|].
  split; [|split; reflexivity].
  erewrite authenticateUser_ok; [reflexivity| |exact Hc].
  simpl. by apply head_filter_snoc.
Qed.

Lemma X1_register_then_authenticate_witness :
  exists (ident : JsObj) (w1 : World),
    createUser (bcrypt := Sample.bcrypt) "Bob" "b@x.com" "pw" None Sample.world0
    = (Fulfilled (Some ident), w1)
    /\ fst (authenticateUser (bcrypt := Sample.bcrypt) "b@x.com" "pw" w1) = Fulfilled ident
    /\ js_get ident "email" = JStr "b@x.com"
    /\ js_get ident "role" = JStr "user".
Proof.
  apply (X1_register_then_authenticate (bcrypt := Sample.bcrypt)
           "Bob" "b@x.com" "pw" None "$2b$10$pw" Sample.world0);
    vm_compute; reflexivity.
Defined.

(** X2: a second registration of an email that was just registered is
    refused. After a successful [createUser], every further [createUser]
    with that email, whatever the name, secret and role, rejects and leaves
    table and serial counter as the first call left them. *)
Theorem X2_second_registration_refused
    {bcrypt : Bcrypt} (name email password : string) (role : option string)
    (ident : option JsObj) (w w1 : World)
    (name' password' : string) (role' : option string) :
  createUser name email password role w = (Fulfilled ident, w1) ->
  fst (createUser name' email password' role' w1) = Rejected (Error "Error creating user")
  /\ table (snd (createUser name' email password' role' w1)) = table w1.
Proof.
  intros Hc.
  destruct (createUser_cases name email password role w)
    as [(r & _ & Hr & _)|[(e & _ & _ & Hr & _)|(h & Hfree & Hh & Hrun)]];
    try (rewrite Hc in Hr; discriminate).
  rewrite Hc in Hrun. injection Hrun as _ Hw1.
  assert (Hhead : head (filter (fun r => u_email r = email) (users w1))
                  = Some (mkRow (next_id w) name email h
                            (default users_role_default role) (now w) (now w))).
  { rewrite Hw1. simpl. by apply head_filter_snoc. }
  rewrite (createUser_taken name' email password' role' w1 _ Hhead). by split.
Qed.

Lemma X2_second_registration_refused_witness :
  fst (createUser (bcrypt := Sample.bcrypt) "Robert" "b@x.com" "other" (Some "admin")
         (snd (createUser (bcrypt := Sample.bcrypt) "Bob" "b@x.com" "pw" None
                 Sample.world0)))
  = Rejected (Error "Error creating user")
  /\ table (snd (createUser (bcrypt := Sample.bcrypt) "Robert" "b@x.com" "other"
                   (Some "admin")
                   (snd (createUser (bcrypt := Sample.bcrypt) "Bob" "b@x.com" "pw" None
                           Sample.world0))))
     = table (snd (createUser (bcrypt := Sample.bcrypt) "Bob" "b@x.com" "pw" None
                     Sample.world0)).
Proof.
  apply (X2_second_registration_refused (bcrypt := Sample.bcrypt)
           "Bob" "b@x.com" "pw" None
           (Some (identity_of (mkRow 3 "Bob" "b@x.com" "$2b$10$pw" "user" 5000 5000)))
           Sample.world0).
  vm_compute. reflexivity.
Defined.

(** X3: a registration refused before the insert statement changes nothing
    but the log. When the email is already in the table, or the hashing
    backend fails on the secret, [createUser] rejects with [Error creating
    user] and the users table, the serial counter and the response object
    are as before the call. *)
Theorem X3_refusal_before_insert_changes_nothing
    {bcrypt : Bcrypt} (name email password : string) (role : option string) (w : World) :
  (exists r, head (filter (fun r => u_email r = email) (users w)) = Some r)
  \/ (exists e, bcrypt_hash password 10 = inl e) ->
  fst (createUser name email password role w) = Rejected (Error "Error creating user")
  /\ table (snd (createUser name email password role w)) = table w
  /\ res (snd (createUser name email password role w)) = res w.
Proof.
  intros Hcause.
  destruct (head (filter (fun r => u_email r = email) (users w))) as [r|] eqn:Hh.
  - rewrite (createUser_taken _ _ _ _ _ r Hh). by repeat split.
  - destruct Hcause as [(r & Hr)|(e & He)]; [discriminate|].
    rewrite (createUser_hash_fails _ _ _ _ _ e Hh He). by repeat split.
Qed.

Lemma X3_refusal_before_insert_changes_nothing_witness :
  (fst (createUser (bcrypt := Sample.bcrypt) "Al" "a@x.com" "pw" None Sample.world0)
   = Rejected (Error "Error creating user")
   /\ table (snd (createUser (bcrypt := Sample.bcrypt) "Al" "a@x.com" "pw" None
                    Sample.world0))
      = ([Sample.alice; Sample.root], 3))
  /\ (fst (createUser (bcrypt := Sample.bcrypt_broken) "Bob" "b@x.com" "pw" None
             Sample.world0)
      = Rejected (Error "Error creating user")
      /\ table (snd (createUser (bcrypt := Sample.bcrypt_broken) "Bob" "b@x.com" "pw" None
                       Sample.world0))
         = ([Sample.alice; Sample.root], 3)).
Proof.
  split.
  - destruct (X3_refusal_before_insert_changes_nothing (bcrypt := Sample.bcrypt)
                "Al" "a@x.com" "pw" None Sample.world0) as (He & Ht & _);
      [left; exists Sample.alice; reflexivity|]. split; [exact He|exact Ht].
  - destruct (X3_refusal_before_insert_changes_nothing (bcrypt := Sample.bcrypt_broken)
                "Bob" "b@x.com" "pw" None Sample.world0) as (He & Ht & _);
      [right; eexists; reflexivity|]. split; [exact He|exact Ht].
Defined.

(** X5: registration followed by sign-in with a secret the backend does not
    accept. When the email is not yet in the table, the backend hashes the
    registered secret to [h] and refuses another secret against [h], sign-in
    with that other secret after [createUser] rejects with [Error
    authenticating user], logs [Invalid password], and leaves the table as
    registration left it. *)
Theorem X5_register_then_wrong_secret
    {bcrypt : Bcrypt} (name email password other : string) (role : option string)
    (h : string) (w : World) :
  head (filter (fun r => u_email r = email) (users w)) = None ->
  bcrypt_hash password 10 = inr h ->
  bcrypt_compare other h = inr false ->
  exists (ident : JsObj) (w1 : World),
    createUser name email password role w = (Fulfilled (Some ident), w1)
    /\ authenticateUser email other w1
       = (Rejected (Error "Error authenticating user"),
          with_log (log w1 ++ [mkLog LError
                                 "Error authenticating user: Error: Invalid password"
                                 None]) w1).
Proof.
  intros Hfree Hh Hc.
  pose proof (createUser_fresh name email password role w h Hfree Hh) as Hcreate.
  simpl in Hcreate. eexists _, _. split; [exact Hcreate|].
  apply (authenticateUser_wrong_secret email other _
           (mkRow (next_id w) name email h (default users_role_default role)
              (now w) (now w))); [|exact Hc].
  simpl. by apply head_filter_snoc.
Qed.

Lemma X5_register_then_wrong_secret_witness :
  exists (ident : JsObj) (w1 : World),
    createUser (bcrypt := Sample.bcrypt) "Bob" "b@x.com" "pw" None Sample.world0
    = (Fulfilled (Some ident), w1)
    /\ authenticateUser (bcrypt := Sample.bcrypt) "b@x.com" "pw " w1
       = (Rejected (Error "Error authenticating user"),
          with_log (log w1 ++ [mkLog LError
                                 "Error authenticating user: Error: Invalid password"
                                 None]) w1).
Proof.
  apply (X5_register_then_wrong_secret (bcrypt := Sample.bcrypt)
           "Bob" "b@x.com" "pw" "pw " None "$2b$10$pw" Sample.world0);
    vm_compute; reflexivity.
Defined.

(** X6: what a successful registration stores and returns. Whenever
    [createUser] fulfils, the hashing backend produced a hash [h] for the
    secret at cost 10, exactly one row was appended after the existing rows,
    carrying the old serial counter as id, [h] as password and the current
    time as creation time, and the value returned is that row's identity,
    which has no [password] property. *)
Theorem X6_registration_stores_the_hash
    {bcrypt : Bcrypt} (name email password : string) (role : option string)
    (w : World) (o : option JsObj) :
  fst (createUser name email password role w) = Fulfilled o ->
  exists h : string,
    bcrypt_hash password 10 = inr h
    /\ users (snd (createUser name email password role w))
       = (users w ++ [mkRow (next_id w) name email h (default users_role_default role)
                        (now w) (now w)])%list
    /\ o = Some (identity_of (mkRow (next_id w) name email h
                                (default users_role_default role) (now w) (now w)))
    /\ (o ≫= (.!! "password")) = None
    /\ (dom <$> o) = Some ({[ "id"; "name"; "email"; "role"; "created_at" ]} : gset string).
Proof.
  intros Ho.
  destruct (createUser_cases name email password role w)
    as [(r & _ & Hr & _)|[(e & _ & _ & Hr & _)|(h & _ & Hh & Hrun)]];
    try (rewrite Ho in Hr; discriminate).
  rewrite Hrun in Ho |- *. simpl in Ho. injection Ho as <-.
  exists h. split; [exact Hh|]. split; [reflexivity|]. split; [reflexivity|].
  split; [reflexivity|]. simpl. by rewrite identity_of_dom.
Qed.

Lemma X6_registration_stores_the_hash_witness :
  exists h : string,
    bcrypt_hash (Bcrypt := Sample.bcrypt) "pw" 10 = inr h
    /\ users (snd (createUser (bcrypt := Sample.bcrypt) "Bob" "b@x.com" "pw" None
                     Sample.world0))
       = [Sample.alice; Sample.root; mkRow 3 "Bob" "b@x.com" h "user" 5000 5000].
Proof.
  destruct (X6_registration_stores_the_hash (bcrypt := Sample.bcrypt)
              "Bob" "b@x.com" "pw" None Sample.world0
              (Some (identity_of (mkRow 3 "Bob" "b@x.com" "$2b$10$pw" "user" 5000 5000))))
    as (h & Hh & Hu & _); [vm_compute; reflexivity|].
  exists h. split; [exact Hh|exact Hu].
Defined.

(** X7: signing in never writes. For all inputs and whatever the outcome,
    [authenticateUser] leaves the users table, the serial counter, the clock
    and the response object untouched; only the log is written. *)
Theorem X7_authenticate_is_read_only
    {bcrypt : Bcrypt} (email password : string) (w : World) :
  users (snd (authenticateUser email password w)) = users w
  /\ next_id (snd (authenticateUser email password w)) = next_id w
  /\ now (snd (authenticateUser email password w)) = now w
  /\ res (snd (authenticateUser email password w)) = res w
  /\ exists lines, log (snd (authenticateUser email password w)) = (log w ++ lines)%list.
Proof.
  destruct (head (filter (fun r => u_email r = email) (users w))) as [r|] eqn:Hh.
  - destruct (bcrypt_compare password (u_password r)) as [e|[|]] eqn:Hc.
    + rewrite (authenticateUser_compare_throws _ _ _ r e Hh Hc). simpl.
      repeat split. rewrite <- app_assoc. by eexists.
    + rewrite (authenticateUser_ok _ _ _ r Hh Hc). simpl. repeat split. by eexists.
    + rewrite (authenticateUser_wrong_secret _ _ _ r Hh Hc). simpl. repeat split. by eexists.
  - rewrite (authenticateUser_unknown _ _ _ Hh). simpl. repeat split. by eexists.
Qed.

Lemma authenticateUser_fulfilled_inv
    {bcrypt : Bcrypt} (email password : string) (w : World) (o : JsObj) :
  fst (authenticateUser email password w) = Fulfilled o ->
  exists r : UserRow,
    head (filter (fun r => u_email r = email) (users w)) = Some r
    /\ bcrypt_compare password (u_password r) = inr true
    /\ o = identity_of r.
Proof.
  intros Ho.
  destruct (head (filter (fun r => u_email r = email) (users w))) as [r|] eqn:Hh.
  - destruct (bcrypt_compare password (u_password r)) as [e|[|]] eqn:Hc.
    + rewrite (authenticateUser_compare_throws _ _ _ r e Hh Hc) in Ho. discriminate.
    + rewrite (authenticateUser_ok _ _ _ r Hh Hc) in Ho. injection Ho as <-.
      by exists r.
    + rewrite (authenticateUser_wrong_secret _ _ _ r Hh Hc) in Ho. discriminate.
  - rewrite (authenticateUser_unknown _ _ _ Hh) in Ho. discriminate.
Qed.

(** X8: when sign-in succeeds. [authenticateUser] fulfils with [o] exactly
    when the first row whose email equals the given one exists, the backend
    accepts the secret against that row's stored hash, and [o] is that row's
    identity; later rows with the same email are never consulted. *)
Theorem X8_authenticate_succeeds_exactly_when
    {bcrypt : Bcrypt} (email password : string) (w : World) (o : JsObj) :
  fst (authenticateUser email password w) = Fulfilled o
  <-> exists r : UserRow,
        head (filter (fun r => u_email r = email) (users w)) = Some r
        /\ bcrypt_compare password (u_password r) = inr true
        /\ o = identity_of r.
Proof.
  split.
  - apply authenticateUser_fulfilled_inv.
  - intros (r & Hh & Hc & ->). by rewrite (authenticateUser_ok _ _ _ r Hh Hc).
Qed.

(** X9: sign-in never hands out the stored hash. For all inputs, a fulfilled
    [authenticateUser] returns an object with exactly the properties [id],
    [name], [email], [role] and [created_at]; in particular it has no
    [password] property. *)
Theorem X9_authenticate_never_returns_hash
    {bcrypt : Bcrypt} (email password : string) (w : World) :
  match fst (authenticateUser email password w) with
  | Fulfilled o =>
      dom o = {[ "id"; "name"; "email"; "role"; "created_at" ]}
      /\ o !! "password" = None
  | Rejected _ => True
  end.
Proof.
  destruct (fst (authenticateUser email password w)) as [o|e] eqn:Ho; [|exact I].
  apply authenticateUser_fulfilled_inv in Ho as (r & _ & _ & ->).
  split; [apply identity_of_dom|reflexivity].
Qed.

(** ** Token codec wrapper and cookie helper: remaining paths *)

(** X10: whenever the underlying signing call fails, for whatever cause,
    [jwtToken.sign] writes the cause to the error log and throws the one
    error [Failed to authenticate token]; nothing else changes. *)
Theorem X10_sign_failure_uniform
    {Payload Token Decoded : Type} {lib : JwtLib Payload Token Decoded}
    (env : gmap string string) (payload : Payload) (w : World) (cause : JsError) :
  jwt_sign payload (JWT_SECRET env) (JWT_EXPIRY env) (now w) = inl cause ->
  jwtToken_sign env payload w
  = (Rejected (Error "Failed to authenticate token"),
     with_log (log w ++ [mkLog LError "Failed to authenticate token" (Some cause)]) w).
Proof.
  intros H. unfold jwtToken_sign, try_catch, bind, get_world. by rewrite H.
Qed.

Lemma X10_sign_failure_uniform_witness :
  jwtToken_sign (lib := Sample.codec) {[ "JWT_EXPIRY" := "a fortnight" ]}
    "id=1;role=user" Sample.world0
  = (Rejected (Error "Failed to authenticate token"),
     with_log [mkLog LError "Failed to authenticate token"
                 (Some (Error "expiresIn should be a number of seconds or a timespan string"))]
       Sample.world0).
Proof.
  apply (X10_sign_failure_uniform (lib := Sample.codec)
           {[ "JWT_EXPIRY" := "a fortnight" ]} "id=1;role=user" Sample.world0).
  vm_compute. reflexivity.
Defined.

(** X11: the signing secret and the time-to-live handed to the token library
    are never the empty string: an unset or empty [JWT_SECRET] falls back to
    [jwt_secret], an unset or empty [JWT_EXPIRY] to [1d], and a non-empty
    setting is used as it is. *)
Theorem X11_secret_and_expiry_defaults
    (env : gmap string string) (c : Ascii.ascii) (s : string) :
  bool_decide (JWT_SECRET env = "") = false
  /\ bool_decide (JWT_EXPIRY env = "") = false
  /\ JWT_SECRET (delete "JWT_SECRET" env) = "jwt_secret"
  /\ JWT_SECRET (<["JWT_SECRET" := ""]> env) = "jwt_secret"
  /\ JWT_EXPIRY (delete "JWT_EXPIRY" env) = "1d"
  /\ JWT_EXPIRY (<["JWT_EXPIRY" := ""]> env) = "1d"
  /\ JWT_SECRET (<["JWT_SECRET" := String c s]> env) = String c s
  /\ JWT_EXPIRY (<["JWT_EXPIRY" := String c s]> env) = String c s.
Proof.
  unfold JWT_SECRET, JWT_EXPIRY, env_or.
  rewrite !lookup_delete_eq, !lookup_insert_eq.
  repeat split; try reflexivity.
  - destruct (env !! "JWT_SECRET") as [v|]; [|reflexivity].
    destruct (bool_decide (v = "")) eqn:Hv; [reflexivity|exact Hv].
  - destruct (env !! "JWT_EXPIRY") as [v|]; [|reflexivity].
    destruct (bool_decide (v = "")) eqn:Hv; [reflexivity|exact Hv].
Qed.

(** X12: setting and then clearing a cookie with the same options hands the
    response the same attribute object both times (the fixed policy laid
    over the caller's options), appends exactly these two calls, and neither
    sends the response nor changes its status. *)
Theorem X12_cookie_set_then_clear
    (env : gmap string string) (name value : string) (options : JsObj) (w : World) :
  (cookies_set env name value options;; cookies_clear env name options) w
  = (Fulfilled tt,
     with_res (mkRes (statusCode (res w)) (sent (res w))
                 (cookie_calls (res w)
                  ++ [SetCookie name value (cookies_getOptions env ∪ options);
                      ClearCookie name (cookies_getOptions env ∪ options)])) w).
Proof.
  unfold cookies_set, cookies_clear, res_cookie, res_clearCookie, bind, modify, spread.
  simpl. unfold with_res. simpl. by rewrite <- app_assoc.
Qed.

(** ** User handlers: validation, authentication and lookup outcomes *)

Section HandlerMore.
Context {Body ZodError : Type} {schemas : Validations Body ZodError}
        {service : UsersService}.

(** [fetchUserById] once the id has parsed. *)
Lemma fetchUserById_parsed (req : Req Body) (id : Z) (w : World) :
  userIdSchema_safeParse (params_id req) = inr id ->
  fetchUserById req w
  = match getUserById id
            (with_log (log w ++ [mkLog LInfo ("Getting user by id: " +:+ params_id req) None])
               w) with
    | (Fulfilled user, w1) =>
        match res_json [("message", JV (JStr "User retrieved successfully"));
                        ("user", JO user)]
                (with_log (log w1 ++ [mkLog LInfo
                                        ("User " +:+ js_toString (js_get user "email")
                                         +:+ " retrieved successfully") None]) w1) with
        | (Fulfilled _, w2) => (Fulfilled tt, w2)
        | (Rejected e, w2) =>
            (if bool_decide (err_message e = "User not found")
             then res_status_json 404 (error_body "User not found")
             else ret tt)
              (with_log (log w2 ++ [mkLog LError
                                      ("Error fetching user by id: " +:+ err_message e)
                                      None]) w2)
        end
    | (Rejected e, w1) =>
        (if bool_decide (err_message e = "User not found")
         then res_status_json 404 (error_body "User not found")
         else ret tt)
          (with_log (log w1 ++ [mkLog LError
                                  ("Error fetching user by id: " +:+ err_message e)
                                  None]) w1)
    end.
Proof.
  intros Hid. unfold fetchUserById. rewrite try_after_log, Hid.
  unfold try_catch, bind at 1.
  destruct (getUserById id _) as [[user|e] w1]; [|reflexivity].
  unfold bind at 1. unfold logger_info at 1, modify. simpl.
  destruct (res_json _ _) as [[[]|e] w2]; reflexivity.
Qed.
End HandlerMore.

(** X13: an id that does not validate is answered 400 [Validation failed]
    with the formatted details by all three handlers; the lookup, update
    and delete services are not reached and [req.user] is not consulted, so
    apart from the log line and the response nothing changes. *)
Theorem X13_invalid_id_is_400
    {Body ZodError : Type} {schemas : Validations Body ZodError}
    {service : UsersService}
    (req : Req Body) (err : ZodError) (w : World) :
  userIdSchema_safeParse (params_id req) = inl err ->
  sent (res w) = None ->
  let answer (line : string) :=
    (Fulfilled tt,
     mkWorld (users w) (next_id w) (now w)
       (log w ++ [mkLog LInfo (line +:+ params_id req) None])
       (mkRes 400 (Some (validation_failed (formatValidationError err)))
          (cookie_calls (res w)))) in
  fetchUserById req w = answer "Getting user by id: "
  /\ updateUserById req w = answer "Updating user: "
  /\ deleteUserById req w = answer "Deleting user: ".
Proof.
  intros Hid Hs answer. subst answer. simpl.
  unfold fetchUserById, updateUserById, deleteUserById.
  rewrite !try_after_log, Hid. unfold try_catch.
  rewrite !res_status_json_fresh by exact Hs. by repeat split.
Qed.

Lemma X13_invalid_id_is_400_witness :
  fetchUserById (schemas := Sample.schemas) (service := Sample.service)
    (mkReq "12a" (∅ : JsObj) None) Sample.world0
  = (Fulfilled tt,
     mkWorld [Sample.alice; Sample.root] 3 5000
       [mkLog LInfo "Getting user by id: 12a" None]
       (mkRes 400 (Some (validation_failed (JStr "ID must be a valid number"))) []))
  /\ deleteUserById (schemas := Sample.schemas) (service := Sample.service)
       (mkReq "12a" (∅ : JsObj) None) Sample.world0
     = (Fulfilled tt,
        mkWorld [Sample.alice; Sample.root] 3 5000
          [mkLog LInfo "Deleting user: 12a" None]
          (mkRes 400 (Some (validation_failed (JStr "ID must be a valid number"))) [])).
Proof.
  destruct (X13_invalid_id_is_400 (schemas := Sample.schemas) (service := Sample.service)
              (mkReq "12a" (∅ : JsObj) None) "ID must be a valid number" Sample.world0)
    as (Hf & _ & Hd); [reflexivity|reflexivity|].
  split; [exact Hf|exact Hd].
Defined.

(** X14: the update payload is validated before authentication is looked
    at. With a valid id and a payload that does not validate,
    [updateUserById] answers 400 [Validation failed] whether or not
    [req.user] is set, and the table is untouched. *)
Theorem X14_invalid_payload_is_400_before_auth
    {Body ZodError : Type} {schemas : Validations Body ZodError}
    {service : UsersService}
    (req : Req Body) (id : Z) (err : ZodError) (w : World) :
  userIdSchema_safeParse (params_id req) = inr id ->
  updateUserSchema_safeParse (body req) = inl err ->
  sent (res w) = None ->
  updateUserById req w
  = (Fulfilled tt,
     mkWorld (users w) (next_id w) (now w)
       (log w ++ [mkLog LInfo ("Updating user: " +:+ params_id req) None])
       (mkRes 400 (Some (validation_failed (formatValidationError err)))
          (cookie_calls (res w)))).
Proof.
  intros Hid Hb Hs. unfold updateUserById.
  rewrite try_after_log, Hid, Hb. unfold try_catch.
  by rewrite res_status_json_fresh by exact Hs.
Qed.

Lemma X14_invalid_payload_is_400_before_auth_witness :
  updateUserById (schemas := SampleStrict.schemas) (service := Sample.service)
    (mkReq "1" {[ "role" := JStr "root" ]} None) Sample.world0
  = (Fulfilled tt,
     mkWorld [Sample.alice; Sample.root] 3 5000
       [mkLog LInfo "Updating user: 1" None]
       (mkRes 400 (Some (validation_failed (JStr "Role must be user or admin"))) [])).
Proof.
  apply (X14_invalid_payload_is_400_before_auth (schemas := SampleStrict.schemas)
           (service := Sample.service)
           (mkReq "1" {[ "role" := JStr "root" ]} None) 1
           "Role must be user or admin" Sample.world0);
    vm_compute; reflexivity.
Defined.



(** X16: when the lookup rejects with the message [User not found],
    [fetchUserById] answers 404 with body [{ error: 'User not found' }] and
    completes normally; the error is logged. *)
Theorem X16_fetch_unknown_user_is_404
    {Body ZodError : Type} {schemas : Validations Body ZodError}
    {service : UsersService}
    (req : Req Body) (id : Z) (e : JsError) (w w1 : World) :
  userIdSchema_safeParse (params_id req) = inr id ->
  getUserById id
    (with_log (log w ++ [mkLog LInfo ("Getting user by id: " +:+ params_id req) None]) w)
  = (Rejected e, w1) ->
  err_message e = "User not found" ->
  sent (res w1) = None ->
  fetchUserById req w
  = (Fulfilled tt,
     mkWorld (users w1) (next_id w1) (now w1)
       (log w1 ++ [mkLog LError "Error fetching user by id: User not found" None])
       (mkRes 404 (Some (error_body "User not found")) (cookie_calls (res w1)))).
Proof.
  intros Hid Hget Hmsg Hs.
  rewrite (fetchUserById_parsed req id w Hid), Hget, Hmsg.
  rewrite bool_decide_eq_true_2 by reflexivity.
  by rewrite res_status_json_fresh by exact Hs.
Qed.

Lemma X16_fetch_unknown_user_is_404_witness :
  fetchUserById (schemas := Sample.schemas) (service := Sample.service)
    (mkReq "7" (∅ : JsObj) None) Sample.world0
  = (Fulfilled tt,
     mkWorld [Sample.alice; Sample.root] 3 5000
       [mkLog LInfo "Getting user by id: 7" None;
        mkLog LError "Error fetching user by id: User not found" None]
       (mkRes 404 (Some (error_body "User not found")) [])).
Proof.
  apply (X16_fetch_unknown_user_is_404 (schemas := Sample.schemas)
           (service := Sample.service)
           (mkReq "7" (∅ : JsObj) None) 7 (Error "User not found") Sample.world0
           (with_log [mkLog LInfo "Getting user by id: 7" None] Sample.world0));
    reflexivity.
Defined.

(** X17: when the lookup fulfils with a user object, [fetchUserById] sends
    that very object under [user] with the message [User retrieved
    successfully], keeps the status code the response already had, and logs
    the user's email. *)
Theorem X17_fetch_known_user
    {Body ZodError : Type} {schemas : Validations Body ZodError}
    {service : UsersService}
    (req : Req Body) (id : Z) (found : JsObj) (w w1 : World) :
  userIdSchema_safeParse (params_id req) = inr id ->
  getUserById id
    (with_log (log w ++ [mkLog LInfo ("Getting user by id: " +:+ params_id req) None]) w)
  = (Fulfilled found, w1) ->
  sent (res w1) = None ->
  fetchUserById req w
  = (Fulfilled tt,
     mkWorld (users w1) (next_id w1) (now w1)
       (log w1 ++ [mkLog LInfo ("User " +:+ js_toString (js_get found "email")
                                +:+ " retrieved successfully") None])
       (mkRes (statusCode (res w1))
          (Some [("message", JV (JStr "User retrieved successfully")); ("user", JO found)])
          (cookie_calls (res w1)))).
Proof.
  intros Hid Hget Hs.
  rewrite (fetchUserById_parsed req id w Hid), Hget.
  unfold res_json. by rewrite res_status_json_fresh by exact Hs.
Qed.

Lemma X17_fetch_known_user_witness :
  fetchUserById (schemas := Sample.schemas) (service := Sample.service)
    (mkReq "2" (∅ : JsObj) None) Sample.world0
  = (Fulfilled tt,
     mkWorld [Sample.alice; Sample.root] 3 5000
       [mkLog LInfo "Getting user by id: 2" None;
        mkLog LInfo "User root@x.com retrieved successfully" None]
       (mkRes 200
          (Some [("message", JV (JStr "User retrieved successfully"));
                 ("user", JO (Sample.row_view Sample.root))]) [])).
Proof.
  apply (X17_fetch_known_user (schemas := Sample.schemas) (service := Sample.service)
           (mkReq "2" (∅ : JsObj) None) 2 (Sample.row_view Sample.root) Sample.world0
           (with_log [mkLog LInfo "Getting user by id: 2" None] Sample.world0));
    reflexivity.
Defined.

(** X18: [fetchUserById] never rejects. Given a response that is not yet
    sent and a lookup that does not send it, the handler fulfils for every
    request: validation failures, unknown users and every other lookup
    error end in a normal return, never in an error passed on to the
    framework. *)
Theorem X18_fetch_never_rejects
    {Body ZodError : Type} {schemas : Validations Body ZodError}
    {service : UsersService}
    (req : Req Body) (w : World) :
  sent (res w) = None ->
  (forall id w0, sent (res w0) = None -> sent (res (snd (getUserById id w0))) = None) ->
  fst (fetchUserById req w) = Fulfilled tt.
Proof.
  intros Hs Hlookup.
  destruct (userIdSchema_safeParse (params_id req)) as [err|id] eqn:Hid.
  - unfold fetchUserById. rewrite try_after_log, Hid. unfold try_catch.
    by rewrite res_status_json_fresh by exact Hs.
  - rewrite (fetchUserById_parsed req id w Hid).
    specialize (Hlookup id
      (with_log (log w ++ [mkLog LInfo ("Getting user by id: " +:+ params_id req) None]) w)
      Hs).
    destruct (getUserById id _) as [[found|e] w1]; simpl in Hlookup.
    + unfold res_json. by rewrite res_status_json_fresh by exact Hlookup.
    + destruct (bool_decide (err_message e = "User not found")); [|reflexivity].
      by rewrite res_status_json_fresh by exact Hlookup.
Qed.

Lemma X18_fetch_never_rejects_witness :
  fst (fetchUserById (schemas := Sample.schemas) (service := Sample.service_down)
         (mkReq "1" (∅ : JsObj) None) Sample.world0) = Fulfilled tt
  /\ fst (fetchUserById (schemas := Sample.schemas) (service := Sample.service)
            (mkReq "7" (∅ : JsObj) None) Sample.world0) = Fulfilled tt.
Proof.
  split.
  - apply (X18_fetch_never_rejects (schemas := Sample.schemas)
             (service := Sample.service_down)); [reflexivity|].
    intros id w0 H0. exact H0.
  - apply (X18_fetch_never_rejects (schemas := Sample.schemas)
             (service := Sample.service)); [reflexivity|].
    intros id w0 H0. simpl. unfold Sample.find_user.
    destruct (head _); exact H0.
Defined.

(** ** [updateUser] and the table *)

Ltac frame :=
  repeat (intros;
    first [ apply preserves_ret | apply preserves_throw | apply preserves_get_world
          | apply preserves_lift_result | apply preserves_select
          | apply preserves_select_where
          | (apply preserves_logger_info; done)
          | (apply preserves_logger_error; done)
          | (apply preserves_res_status_json; done)
          | (apply preserves_res_json; done)
          | apply preserves_bind | apply preserves_try_catch | apply preserves_if
          | match goal with
            | |- preserves _ (match ?x with _ => _ end) => destruct x
            end
          | progress cbv zeta ]).

Lemma set_columns_id (data : JsObj) (r : UserRow) : u_id (set_columns data r) = u_id r.
Proof. reflexivity. Qed.

Lemma set_columns_role (data : JsObj) (r : UserRow) :
  data !! "role" = None -> u_role (set_columns data r) = u_role r.
Proof. intros H. unfold set_columns. simpl. by rewrite H. Qed.

Lemma head_filter_Some {A} (P : A -> Prop) `{!forall x, Decision (P x)} (l : list A) (x : A) :
  head (filter P l) = Some x -> P x.
Proof.
  induction l as [|a l IH]; [discriminate|].
  rewrite filter_cons. destruct (decide (P a)); simpl; [|exact IH].
  by intros [= <-].
Qed.

Section UpdateRows.
Variables (data : JsObj) (i : Z).

Let touched (r : UserRow) : UserRow :=
  if bool_decide (u_id r = i) then set_columns data r else r.

Lemma touched_id (r : UserRow) : u_id (touched r) = u_id r.
Proof. unfold touched. by destruct (bool_decide _). Qed.

Lemma db_update_users_run (w : World) :
  db_update_users data i w
  = (Fulfilled (filter (fun r => u_id r = i) (map touched (users w))),
     with_users (map touched (users w)) w).
Proof. reflexivity. Qed.

Lemma update_keeps_ids (l : list UserRow) : u_id <$> map touched l = u_id <$> l.
Proof.
  induction l as [|a l IH]; [done|].
  rewrite map_cons, !fmap_cons, touched_id. by f_equal.
Qed.

Lemma update_keeps_roles (l : list UserRow) :
  data !! "role" = None -> u_role <$> map touched l = u_role <$> l.
Proof.
  intros H. induction l as [|a l IH]; [done|].
  rewrite map_cons, !fmap_cons, IH. f_equal.
  unfold touched. destruct (bool_decide _); [by apply set_columns_role|done].
Qed.

Lemma update_keeps_other_rows (l : list UserRow) :
  filter (fun r => u_id r <> i) (map touched l) = filter (fun r => u_id r <> i) l.
Proof.
  induction l as [|a l IH]; [done|].
  rewrite map_cons, !filter_cons, touched_id, IH.
  destruct (decide (u_id a <> i)) as [Hne|]; [|done].
  unfold touched. by rewrite bool_decide_eq_false_2.
Qed.

Lemma update_returns_target (l : list UserRow) (r : UserRow) :
  head (filter (fun r => u_id r = i) l) = Some r ->
  head (filter (fun r => u_id r = i) (map touched l)) = Some (set_columns data r).
Proof.
  induction l as [|a l IH]; [discriminate|].
  rewrite map_cons, !filter_cons, touched_id.
  destruct (decide (u_id a = i)) as [Ha|]; [|exact IH].
  intros [= <-]. unfold touched. by rewrite bool_decide_eq_true_2.
Qed.
End UpdateRows.

Lemma select_where_head (e : string) (w : World) :
  db_select_users_where_email (JStr e) w
  = (Fulfilled (take 1%nat (filter (fun r => u_email r = e) (users w))), w).
Proof. reflexivity. Qed.

(** X19: [updateUser] passes a lookup failure on unchanged. When
    [getUserById] rejects with an error, [updateUser] logs it and rejects
    with that very error, so that a caller can still tell its kind; the
    update statement is not reached. *)
Theorem X19_updateUser_rethrows_lookup_error
    {service : UsersService} (id : Z) (updates : JsObj) (e : JsError) (w w1 : World) :
  getUserById id w = (Rejected e, w1) ->
  updateUser id updates w
  = (Rejected e,
     with_log (log w1 ++ [mkLog LError ("Error updating user " +:+ pretty id +:+ ":")
                            (Some e)]) w1).
Proof.
  intros Hget. unfold updateUser, try_catch. unfold bind at 1. by rewrite Hget.
Qed.

Lemma X19_updateUser_rethrows_lookup_error_witness :
  updateUser (service := Sample.service) 7 {[ "name" := JStr "Al" ]} Sample.world0
  = (Rejected (Error "User not found"),
     with_log [mkLog LError "Error updating user 7:" (Some (Error "User not found"))]
       Sample.world0).
Proof.
  apply (X19_updateUser_rethrows_lookup_error (service := Sample.service)
           7 {[ "name" := JStr "Al" ]} (Error "User not found") Sample.world0 Sample.world0).
  reflexivity.
Defined.

(** X20: changing the email to one that another row already holds is
    refused. When the payload's email is a non-empty string different from
    the looked-up user's email and some row of the table carries it,
    [updateUser] rejects with [Email already exists] and the table is not
    written. *)
Theorem X20_updateUser_email_conflict
    {service : UsersService} (id : Z) (updates existing : JsObj) (e' : string)
    (r : UserRow) (w w1 : World) :
  getUserById id w = (Fulfilled existing, w1) ->
  js_get updates "email" = JStr e' ->
  e' <> "" ->
  js_get existing "email" <> JStr e' ->
  head (filter (fun r => u_email r = e') (users w1)) = Some r ->
  updateUser id updates w
  = (Rejected (Error "Email already exists"),
     with_log (log w1 ++ [mkLog LError ("Error updating user " +:+ pretty id +:+ ":")
                            (Some (Error "Email already exists"))]) w1).
Proof.
  intros Hget Hmail Hne Hdiff Hrow.
  unfold updateUser, try_catch. unfold bind at 1. rewrite Hget.
  rewrite Hmail. simpl truthy. rewrite (bool_decide_eq_false_2 _ Hne). simpl negb.
  rewrite strict_ne_true by congruence. simpl andb.
  unfold bind at 1. unfold bind at 1. rewrite select_where_head.
  rewrite head_take_1, Hrow. reflexivity.
Qed.

Lemma X20_updateUser_email_conflict_witness :
  updateUser (service := Sample.service) 1 {[ "email" := JStr "root@x.com" ]} Sample.world0
  = (Rejected (Error "Email already exists"),
     with_log [mkLog LError "Error updating user 1:" (Some (Error "Email already exists"))]
       Sample.world0).
Proof.
  apply (X20_updateUser_email_conflict (service := Sample.service)
           1 {[ "email" := JStr "root@x.com" ]} (Sample.row_view Sample.alice)
           "root@x.com" Sample.root Sample.world0 Sample.world0);
    solve [ reflexivity | vm_compute; discriminate ].
Defined.

Lemma email_guard_passes (updates existing : JsObj) (w1 : World) :
  js_get updates "email" = js_get existing "email"
  \/ truthy (js_get updates "email") = false
  \/ (exists e', js_get updates "email" = JStr e'
                 /\ head (filter (fun r => u_email r = e') (users w1)) = None) ->
  (if truthy (js_get updates "email")
      && strict_ne (js_get updates "email") (js_get existing "email")
   then
     let* rows := db_select_users_where_email (js_get updates "email") in
     match head rows with
     | Some emailExists => throw (Error "Email already exists")
     | None => ret tt
     end
   else ret tt) w1
  = (Fulfilled tt, w1).
Proof.
  intros [Hsame|[Hfalsy|(e' & He' & Hfree)]].
  - rewrite (strict_ne_false _ _ Hsame), andb_false_r. reflexivity.
  - rewrite Hfalsy. reflexivity.
  - destruct (truthy (js_get updates "email")
              && strict_ne (js_get updates "email") (js_get existing "email"));
      [|reflexivity].
    rewrite He'. unfold bind. rewrite select_where_head, head_take_1, Hfree. reflexivity.
Qed.

Lemma head_map {A B} (g : A -> B) (l : list A) : head (map g l) = g <$> head l.
Proof. by destruct l. Qed.

(** The run of [updateUser] when nothing stands in its way. *)
Lemma updateUser_run_success
    {service : UsersService} (id : Z) (updates existing : JsObj) (r : UserRow)
    (w w1 : World) :
  getUserById id w = (Fulfilled existing, w1) ->
  (js_get updates "email" = js_get existing "email"
   \/ truthy (js_get updates "email") = false
   \/ (exists e', js_get updates "email" = JStr e'
                  /\ head (filter (fun r => u_email r = e') (users w1)) = None)) ->
  head (filter (fun r => u_id r = id) (users w1)) = Some r ->
  updateUser id updates w
  = (Fulfilled (updated_view (set_columns (<["updated_at" := JNum (now w1)]> updates) r)),
     mkWorld (map (fun x => if bool_decide (u_id x = id)
                            then set_columns (<["updated_at" := JNum (now w1)]> updates) x
                            else x)
                (users w1))
       (next_id w1) (now w1)
       (log w1 ++ [mkLog LInfo
                     ("User " +:+ u_email (set_columns
                                            (<["updated_at" := JNum (now w1)]> updates) r)
                      +:+ " updated successfully") None])
       (res w1)).
Proof.
  intros Hget Hemail Hrow.
  unfold updateUser, try_catch. unfold bind at 1. rewrite Hget.
  unfold bind at 1. rewrite (email_guard_passes updates existing w1 Hemail).
  unfold bind at 1, get_world. unfold bind at 1.
  rewrite db_update_users_run. rewrite head_map.
  rewrite (update_returns_target _ id (users w1) r Hrow). reflexivity.
Qed.

(** X21: what a successful [updateUser] writes and returns. For a payload
    whose properties are among [name], [email] and [role], each a string:
    when the lookup fulfils, the
    payload's email is unchanged, absent or held by no row, and the table has
    a row with the target id, [updateUser] overwrites in every row with that
    id the columns named in the payload and sets [updated_at] to the current
    time; rows with other ids are left as they are, and the first row with
    the target id, as updated, is returned as
    [{id, email, name, role, created_at, updated_at}]. *)
Theorem X21_updateUser_success
    {service : UsersService} (id : Z) (updates existing : JsObj) (r : UserRow)
    (w w1 : World) :
  profile_payload updates ->
  getUserById id w = (Fulfilled existing, w1) ->
  (js_get updates "email" = js_get existing "email"
   \/ truthy (js_get updates "email") = false
   \/ (exists e', js_get updates "email" = JStr e'
                  /\ head (filter (fun r => u_email r = e') (users w1)) = None)) ->
  head (filter (fun r => u_id r = id) (users w1)) = Some r ->
  let data := <["updated_at" := JNum (now w1)]> updates in
  let r' := set_columns data r in
  updateUser id updates w
  = (Fulfilled (updated_view r'),
     mkWorld (map (fun x => if bool_decide (u_id x = id) then set_columns data x else x)
                (users w1))
       (next_id w1) (now w1)
       (log w1 ++ [mkLog LInfo ("User " +:+ u_email r' +:+ " updated successfully") None])
       (res w1))
  /\ u_id r' = id
  /\ u_updated_at r' = now w1
  /\ filter (fun x => u_id x <> id)
       (users (snd (updateUser id updates w)))
     = filter (fun x => u_id x <> id) (users w1).
Proof.
  intros _ Hget Hemail Hrow data r'.
  assert (Hrun : updateUser id updates w
    = (Fulfilled (updated_view r'),
       mkWorld (map (fun x => if bool_decide (u_id x = id) then set_columns data x else x)
                  (users w1))
         (next_id w1) (now w1)
         (log w1 ++ [mkLog LInfo ("User " +:+ u_email r' +:+ " updated successfully") None])
         (res w1))).
  { exact (updateUser_run_success id updates existing r w w1 Hget Hemail Hrow). }
  split; [exact Hrun|]. split.
  - apply head_filter_Some in Hrow. exact Hrow.
  - split; [unfold r', data, set_columns; simpl; by rewrite lookup_insert_eq|].
    rewrite Hrun. simpl. apply update_keeps_other_rows.
Qed.

Lemma X21_updateUser_success_witness :
  updateUser (service := Sample.service) 1
    {[ "name" := JStr "Al"; "email" := JStr "al@x.com" ]} Sample.world0
  = (Fulfilled {[ "id" := JNum 1; "email" := JStr "al@x.com"; "name" := JStr "Al";
                  "role" := JStr "user"; "created_at" := JNum 1000;
                  "updated_at" := JNum 5000 ]},
     mkWorld [mkRow 1 "Al" "al@x.com" "$2b$10$correct horse" "user" 1000 5000; Sample.root]
       3 5000 [mkLog LInfo "User al@x.com updated successfully" None] fresh_res).
Proof.
  destruct (X21_updateUser_success (service := Sample.service) 1
              {[ "name" := JStr "Al"; "email" := JStr "al@x.com" ]}
              (Sample.row_view Sample.alice) Sample.alice Sample.world0 Sample.world0)
    as (Hrun & _); [|reflexivity| |reflexivity|].
  - intros k v Hk.
    apply lookup_insert_Some in Hk as [[<- <-]|[_ Hk]]; [eauto|].
    apply lookup_singleton_Some in Hk as [<- <-]; eauto.
  - right; right. exists "al@x.com". split; reflexivity.
  - rewrite Hrun. vm_compute. reflexivity.
Defined.

Section UpdateFrame.
Context {service : UsersService} {T : Type} (f : World -> T).
Hypothesis f_log : forall l w, f (with_log l w) = f w.
Hypothesis f_res : forall r w, f (with_res r w) = f w.

(** [updateUser] keeps whatever the lookup and the update statement keep. *)
Lemma updateUser_preserves (id : Z) (updates : JsObj) :
  preserves f (getUserById id) ->
  (forall t, preserves f (db_update_users (<["updated_at" := JNum t]> updates) id)) ->
  preserves f (updateUser id updates).
Proof.
  intros Hlookup Hupd. unfold updateUser.
  apply preserves_try_catch; [|frame].
  apply preserves_bind; [exact Hlookup|]. intros existing.
  apply preserves_bind; [frame|]. intros _.
  apply preserves_bind; [frame|]. intros w0. cbv zeta.
  apply preserves_bind; [apply Hupd|]. frame.
Qed.

Lemma updateUserById_catch_preserves (e : JsError) : preserves f (updateUserById_catch e).
Proof. unfold updateUserById_catch. frame. Qed.
End UpdateFrame.

Lemma db_update_users_keeps_ids (data : JsObj) (i : Z) :
  preserves (fun w => (u_id <$> users w, next_id w)) (db_update_users data i).
Proof. intros w. rewrite db_update_users_run. simpl. by rewrite update_keeps_ids. Qed.

Lemma db_update_users_keeps_roles (data : JsObj) (i : Z) :
  data !! "role" = None ->
  preserves (fun w => u_role <$> users w) (db_update_users data i).
Proof. intros H w. rewrite db_update_users_run. simpl. by apply update_keeps_roles. Qed.

Lemma db_update_users_keeps_other_rows (data : JsObj) (i : Z) :
  preserves (fun w => filter (fun r => u_id r <> i) (users w)) (db_update_users data i).
Proof. intros w. rewrite db_update_users_run. simpl. apply update_keeps_other_rows. Qed.

(** X22: [updateUser] never adds, removes, reorders or renumbers rows. With
    a lookup that does not write the table and a payload that does not name
    the [id] column, the list of row ids and the serial counter after
    [updateUser] are those before it, whatever else the payload holds and
    whatever the outcome. *)
Theorem X22_updateUser_keeps_ids
    {service : UsersService} (id : Z) (updates : JsObj) (w : World) :
  updates !! "id" = None ->
  (forall w0, (u_id <$> users (snd (getUserById id w0)), next_id (snd (getUserById id w0)))
              = (u_id <$> users w0, next_id w0)) ->
  u_id <$> users (snd (updateUser id updates w)) = u_id <$> users w
  /\ next_id (snd (updateUser id updates w)) = next_id w.
Proof.
  intros _ Hlookup.
  pose proof (updateUser_preserves (fun w => (u_id <$> users w, next_id w))
                (fun _ _ => eq_refl) id updates Hlookup
                (fun t => db_update_users_keeps_ids _ id) w) as H.
  simpl in H. by injection H.
Qed.

Lemma X22_updateUser_keeps_ids_witness :
  u_id <$> users (snd (updateUser (service := Sample.service) 1
                         {[ "email" := JStr "root@x.com"; "name" := JStr "Al" ]}
                         Sample.world0))
  = [1; 2]
  /\ next_id (snd (updateUser (service := Sample.service) 1
                     {[ "email" := JStr "root@x.com"; "name" := JStr "Al" ]}
                     Sample.world0)) = 3.
Proof.
  apply (X22_updateUser_keeps_ids (service := Sample.service) 1
           {[ "email" := JStr "root@x.com"; "name" := JStr "Al" ]} Sample.world0);
    [reflexivity|].
  intros w0. simpl. unfold Sample.find_user. by destruct (head _).
Defined.

(** ** [updateUserById]: what a non-admin can reach *)

(** X23: a requester who is not an admin cannot change any role through
    [updateUserById]. With a lookup that does not write the table, for every
    request that is unauthenticated or whose [req.user.role] is not [admin],
    the roles of all rows after the handler are those before it, whatever
    the payload, the target id and the outcome. *)
Theorem X23_nonadmin_cannot_change_roles
    {Body ZodError : Type} {schemas : Validations Body ZodError}
    {service : UsersService}
    (req : Req Body) (w : World) :
  (forall id w0, users (snd (getUserById id w0)) = users w0) ->
  match user req with
  | Some u => js_get u "role" <> JStr "admin"
  | None => True
  end ->
  u_role <$> users (snd (updateUserById req w)) = u_role <$> users w.
Proof.
  intros Hlookup Hrole. revert w.
  change (preserves (fun w => u_role <$> users w) (updateUserById req)).
  unfold updateUserById.
  apply preserves_try_catch; [|intros e; by apply updateUserById_catch_preserves].
  apply preserves_bind; [frame|]. intros _.
  destruct (userIdSchema_safeParse (params_id req)) as [err|id]; [frame|].
  destruct (updateUserSchema_safeParse (body req)) as [err|updates]; [frame|].
  destruct (user req) as [u|]; [|frame].
  apply preserves_if; [frame|].
  unfold updateUserById_role_stage. apply preserves_if; [frame|].
  rewrite (strict_ne_true _ _ Hrole). cbv zeta.
  apply preserves_bind; [|frame].
  apply updateUser_preserves; [done| |].
  - intros w0. simpl. by rewrite Hlookup.
  - intros t. apply db_update_users_keeps_roles.
    rewrite lookup_insert_ne by done. apply lookup_delete_eq.
Qed.

Lemma X23_nonadmin_cannot_change_roles_witness :
  u_role <$> users (snd (updateUserById (schemas := Sample.schemas)
                           (service := Sample.service)
                           (mkReq "1" {[ "name" := JStr "Al"; "role" := JStr "" ]}
                              (Some (Sample.as_user Sample.alice)))
                           Sample.world0))
  = ["user"; "admin"]
  /\ u_name <$> users (snd (updateUserById (schemas := Sample.schemas)
                              (service := Sample.service)
                              (mkReq "1" {[ "name" := JStr "Al"; "role" := JStr "" ]}
                                 (Some (Sample.as_user Sample.alice)))
                              Sample.world0))
     = ["Al"; "Root"].
Proof.
  split.
  - apply (X23_nonadmin_cannot_change_roles (schemas := Sample.schemas)
             (service := Sample.service)
             (mkReq "1" {[ "name" := JStr "Al"; "role" := JStr "" ]}
                (Some (Sample.as_user Sample.alice)))
             Sample.world0).
    + intros id w0. simpl. unfold Sample.find_user. by destruct (head _).
    + vm_compute. discriminate.
  - vm_compute. reflexivity.
Defined.

(** X24: a requester who is not an admin cannot write any row but their
    own. With a lookup that does not write the table and validated payloads
    that do not name the [id] column, for a requester whose role is not
    [admin] and whose id is [k], the rows with an id other than [k] are
    after [updateUserById] exactly what they were before, whatever the
    target id, the payload and the outcome. *)
Theorem X24_nonadmin_cannot_write_other_rows
    {Body ZodError : Type} {schemas : Validations Body ZodError}
    {service : UsersService}
    (req : Req Body) (u : JsObj) (k : Z) (w : World) :
  (forall id w0, users (snd (getUserById id w0)) = users w0) ->
  (forall updates, updateUserSchema_safeParse (body req) = inr updates ->
                   updates !! "id" = None) ->
  user req = Some u ->
  js_get u "role" <> JStr "admin" ->
  js_get u "id" = JNum k ->
  filter (fun r => u_id r <> k) (users (snd (updateUserById req w)))
  = filter (fun r => u_id r <> k) (users w).
Proof.
  intros Hlookup _ Hu Hrole Hown. revert w.
  change (preserves (fun w => filter (fun r => u_id r <> k) (users w)) (updateUserById req)).
  unfold updateUserById.
  apply preserves_try_catch; [|intros e; by apply updateUserById_catch_preserves].
  apply preserves_bind; [frame|]. intros _.
  destruct (userIdSchema_safeParse (params_id req)) as [err|id]; [frame|].
  destruct (updateUserSchema_safeParse (body req)) as [err|updates]; [frame|].
  rewrite Hu, (strict_ne_true _ _ Hrole), Hown. simpl andb. unfold strict_ne at 1.
  destruct (decide (k = id)) as [->|Hne].
  - rewrite bool_decide_eq_true_2 by reflexivity. simpl negb. cbv iota.
    unfold updateUserById_role_stage. apply preserves_if; [frame|].
    cbv zeta. apply preserves_bind; [|frame].
    apply updateUser_preserves; [done| |].
    + intros w0. simpl. by rewrite Hlookup.
    + intros t. apply db_update_users_keeps_other_rows.
  - rewrite bool_decide_eq_false_2 by congruence. simpl negb. cbv iota. frame.
Qed.

Lemma X24_nonadmin_cannot_write_other_rows_witness :
  filter (fun r => u_id r <> 1)
    (users (snd (updateUserById (schemas := Sample.schemas) (service := Sample.service)
                   (mkReq "2" {[ "name" := JStr "Mallory" ]}
                      (Some (Sample.as_user Sample.alice)))
                   Sample.world0)))
  = [Sample.root]
  /\ filter (fun r => u_id r <> 1)
       (users (snd (updateUserById (schemas := Sample.schemas) (service := Sample.service)
                      (mkReq "1" {[ "name" := JStr "Al" ]}
                         (Some (Sample.as_user Sample.alice)))
                      Sample.world0)))
     = [Sample.root].
Proof.
  split;
    (eapply (X24_nonadmin_cannot_write_other_rows (schemas := Sample.schemas)
               (service := Sample.service) _ (Sample.as_user Sample.alice) 1 Sample.world0);
     [ intros id w0; simpl; unfold Sample.find_user; by destruct (head _)
     | intros updates [= <-]; reflexivity
     | reflexivity
     | vm_compute; discriminate
     | reflexivity ]).
Defined.

Section UpdateOutcome.
Context {Body ZodError : Type} {schemas : Validations Body ZodError}
        {service : UsersService}.

(** [updateUserById] for a request that passes both authorization guards. *)
Lemma updateUserById_authorized (req : Req Body) (id : Z) (updates u : JsObj) (w : World) :
  userIdSchema_safeParse (params_id req) = inr id ->
  updateUserSchema_safeParse (body req) = inr updates ->
  user req = Some u ->
  (js_get u "role" = JStr "admin"
   \/ (js_get u "id" = JNum id /\ truthy (js_get updates "role") = false)) ->
  updateUserById req w
  = try_catch
      (let* updatedUser :=
         updateUser id (if strict_ne (js_get u "role") (JStr "admin")
                        then delete "role" updates else updates) in
       logger_info ("User " +:+ js_toString (js_get updatedUser "email")
                    +:+ " updated successfully");;
       res_json [("message", JV (JStr "User updated successfully"));
                 ("user", JO updatedUser)])
      updateUserById_catch
      (with_log (log w ++ [mkLog LInfo ("Updating user: " +:+ params_id req) None]) w).
Proof.
  intros Hid Hb Hu Hauth.
  rewrite (updateUserById_ownership req id updates u w Hid Hb Hu).
  unfold updateUserById_role_stage.
  destruct Hauth as [Hadmin|[Hown Hfalsy]].
  - rewrite (strict_ne_false _ _ Hadmin). simpl andb. rewrite andb_false_r. reflexivity.
  - rewrite (strict_ne_false _ _ Hown), andb_false_r, Hfalsy. reflexivity.
Qed.
End UpdateOutcome.

(** X25: how [updateUserById] answers once a request is authorized (the
    requester is an admin, or targets their own id with no truthy role in
    the payload). The update runs with the payload, minus [role] for a
    non-admin. If it fulfils, the updated user is sent under [user] with
    [User updated successfully] and the status code is kept; if it rejects
    with [User not found] the answer is 404, with [Email already exists]
    409, and with anything else the handler itself rejects with [Error
    updating user] and sends nothing. *)
Theorem X25_update_handler_outcomes
    {Body ZodError : Type} {schemas : Validations Body ZodError}
    {service : UsersService}
    (req : Req Body) (id : Z) (updates u : JsObj) (w w2 : World) (out : Outcome JsObj) :
  userIdSchema_safeParse (params_id req) = inr id ->
  updateUserSchema_safeParse (body req) = inr updates ->
  user req = Some u ->
  (js_get u "role" = JStr "admin"
   \/ (js_get u "id" = JNum id /\ truthy (js_get updates "role") = false)) ->
  updateUser id (if strict_ne (js_get u "role") (JStr "admin")
                 then delete "role" updates else updates)
    (with_log (log w ++ [mkLog LInfo ("Updating user: " +:+ params_id req) None]) w)
  = (out, w2) ->
  sent (res w2) = None ->
  updateUserById req w
  = match out with
    | Fulfilled updatedUser =>
        (Fulfilled tt,
         mkWorld (users w2) (next_id w2) (now w2)
           (log w2 ++ [mkLog LInfo ("User " +:+ js_toString (js_get updatedUser "email")
                                    +:+ " updated successfully") None])
           (mkRes (statusCode (res w2))
              (Some [("message", JV (JStr "User updated successfully"));
                     ("user", JO updatedUser)])
              (cookie_calls (res w2))))
    | Rejected e =>
        let logged :=
          (log w2 ++ [mkLog LError ("Error updating user: " +:+ err_message e) None])%list in
        if bool_decide (err_message e = "User not found")
        then (Fulfilled tt,
              mkWorld (users w2) (next_id w2) (now w2) logged
                (mkRes 404 (Some (error_body "User not found")) (cookie_calls (res w2))))
        else if bool_decide (err_message e = "Email already exists")
        then (Fulfilled tt,
              mkWorld (users w2) (next_id w2) (now w2) logged
                (mkRes 409 (Some (error_body "Email already exists"))
                   (cookie_calls (res w2))))
        else (Rejected (Error "Error updating user"),
              mkWorld (users w2) (next_id w2) (now w2) logged (res w2))
    end.
Proof.
  intros Hid Hb Hu Hauth Hrun Hs.
  rewrite (updateUserById_authorized req id updates u w Hid Hb Hu Hauth).
  unfold try_catch. unfold bind at 1. rewrite Hrun.
  destruct out as [updatedUser|e].
  - unfold bind, logger_info, modify, res_json. simpl.
    by rewrite res_status_json_fresh by exact Hs.
  - unfold updateUserById_catch, bind, logger_error, modify. simpl.
    destruct (bool_decide (err_message e = "User not found"));
      [by rewrite res_status_json_fresh by exact Hs|].
    destruct (bool_decide (err_message e = "Email already exists"));
      [by rewrite res_status_json_fresh by exact Hs|].
    reflexivity.
Qed.

Lemma X25_update_handler_outcomes_witness :
  updateUserById (schemas := Sample.schemas) (service := Sample.service)
    (mkReq "1" {[ "email" := JStr "root@x.com" ]} (Some (Sample.as_user Sample.alice)))
    Sample.world0
  = (Fulfilled tt,
     mkWorld [Sample.alice; Sample.root] 3 5000
       [mkLog LInfo "Updating user: 1" None;
        mkLog LError "Error updating user 1:" (Some (Error "Email already exists"));
        mkLog LError "Error updating user: Email already exists" None]
       (mkRes 409 (Some (error_body "Email already exists")) []))
  /\ updateUserById (schemas := Sample.schemas) (service := Sample.service_down)
       (mkReq "1" {[ "role" := JStr "admin" ]} (Some (Sample.as_user Sample.root)))
       Sample.world0
     = (Rejected (Error "Error updating user"),
        mkWorld [Sample.alice; Sample.root] 3 5000
          [mkLog LInfo "Updating user: 1" None;
           mkLog LError "Error updating user 1:" (Some Sample.unreachable);
           mkLog LError "Error updating user: connect ECONNREFUSED 127.0.0.1:5432" None]
          fresh_res).
Proof.
  split.
  - apply (X25_update_handler_outcomes (schemas := Sample.schemas)
             (service := Sample.service)
             (mkReq "1" {[ "email" := JStr "root@x.com" ]}
                (Some (Sample.as_user Sample.alice)))
             1 {[ "email" := JStr "root@x.com" ]} (Sample.as_user Sample.alice)
             Sample.world0
             (with_log [mkLog LInfo "Updating user: 1" None;
                        mkLog LError "Error updating user 1:"
                          (Some (Error "Email already exists"))] Sample.world0)
             (Rejected (Error "Email already exists")));
      [ reflexivity | reflexivity | reflexivity
      | right; split; reflexivity | vm_compute; reflexivity | reflexivity ].
  - apply (X25_update_handler_outcomes (schemas := Sample.schemas)
             (service := Sample.service_down)
             (mkReq "1" {[ "role" := JStr "admin" ]} (Some (Sample.as_user Sample.root)))
             1 {[ "role" := JStr "admin" ]} (Sample.as_user Sample.root)
             Sample.world0
             (with_log [mkLog LInfo "Updating user: 1" None;
                        mkLog LError "Error updating user 1:" (Some Sample.unreachable)]
                Sample.world0)
             (Rejected Sample.unreachable));
      [ reflexivity | reflexivity | reflexivity
      | left; reflexivity | vm_compute; reflexivity | reflexivity ].
Defined.

(** ** [deleteUserById] *)

Section DeleteOutcome.
Context {Body ZodError : Type} {schemas : Validations Body ZodError}
        {service : UsersService}.

(** [deleteUserById] for an admin whose own id is not the target. *)
Lemma deleteUserById_admin_other (req : Req Body) (id : Z) (u : JsObj) (w : World) :
  userIdSchema_safeParse (params_id req) = inr id ->
  user req = Some u ->
  js_get u "role" = JStr "admin" ->
  js_get u "id" <> JNum id ->
  deleteUserById req w
  = match deleteUser id
            (with_log (log w ++ [mkLog LInfo ("Deleting user: " +:+ params_id req) None]) w)
    with
    | (Fulfilled deletedUser, w2) =>
        match res_json [("message", JV (JStr "User deleted successfully"));
                        ("user", JO deletedUser)]
                (with_log (log w2 ++ [mkLog LInfo
                                        ("User " +:+ js_toString (js_get deletedUser "email")
                                         +:+ " deleted successfully") None]) w2) with
        | (Fulfilled _, w3) => (Fulfilled tt, w3)
        | (Rejected e, w3) =>
            (if bool_decide (err_message e = "User not found")
             then res_status_json 404 (error_body "User not found")
             else throw (Error "Error deleting user"))
              (with_log (log w3 ++ [mkLog LError ("Error deleting user: " +:+ err_message e)
                                      None]) w3)
        end
    | (Rejected e, w2) =>
        (if bool_decide (err_message e = "User not found")
         then res_status_json 404 (error_body "User not found")
         else throw (Error "Error deleting user"))
          (with_log (log w2 ++ [mkLog LError ("Error deleting user: " +:+ err_message e)
                                  None]) w2)
    end.
Proof.
  intros Hid Hu Hadmin Hother. unfold deleteUserById.
  rewrite try_after_log, Hid, Hu, (strict_ne_false _ _ Hadmin).
  rewrite (bool_decide_eq_false_2 _ Hother).
  unfold try_catch, bind at 1.
  destruct (deleteUser id _) as [[deletedUser|e] w2]; [|reflexivity].
  unfold bind at 1. unfold logger_info at 1, modify. simpl.
  destruct (res_json _ _) as [[[]|e] w3]; reflexivity.
Qed.
End DeleteOutcome.

(** X26: how [deleteUserById] answers an admin who targets another id. If
    the delete service fulfils, the deleted user is sent under [user] with
    [User deleted successfully] and the status code is kept; if it rejects
    with [User not found] the answer is 404; with any other error the
    handler itself rejects with [Error deleting user] and sends nothing. *)
Theorem X26_delete_handler_outcomes
    {Body ZodError : Type} {schemas : Validations Body ZodError}
    {service : UsersService}
    (req : Req Body) (id : Z) (u : JsObj) (w w2 : World) (out : Outcome JsObj) :
  userIdSchema_safeParse (params_id req) = inr id ->
  user req = Some u ->
  js_get u "role" = JStr "admin" ->
  js_get u "id" <> JNum id ->
  deleteUser id
    (with_log (log w ++ [mkLog LInfo ("Deleting user: " +:+ params_id req) None]) w)
  = (out, w2) ->
  sent (res w2) = None ->
  deleteUserById req w
  = match out with
    | Fulfilled deletedUser =>
        (Fulfilled tt,
         mkWorld (users w2) (next_id w2) (now w2)
           (log w2 ++ [mkLog LInfo ("User " +:+ js_toString (js_get deletedUser "email")
                                    +:+ " deleted successfully") None])
           (mkRes (statusCode (res w2))
              (Some [("message", JV (JStr "User deleted successfully"));
                     ("user", JO deletedUser)])
              (cookie_calls (res w2))))
    | Rejected e =>
        let logged :=
          (log w2 ++ [mkLog LError ("Error deleting user: " +:+ err_message e) None])%list in
        if bool_decide (err_message e = "User not found")
        then (Fulfilled tt,
              mkWorld (users w2) (next_id w2) (now w2) logged
                (mkRes 404 (Some (error_body "User not found")) (cookie_calls (res w2))))
        else (Rejected (Error "Error deleting user"),
              mkWorld (users w2) (next_id w2) (now w2) logged (res w2))
    end.
Proof.
  intros Hid Hu Hadmin Hother Hrun Hs.
  rewrite (deleteUserById_admin_other req id u w Hid Hu Hadmin Hother), Hrun.
  destruct out as [deletedUser|e].
  - unfold res_json. by rewrite res_status_json_fresh by exact Hs.
  - simpl. destruct (bool_decide (err_message e = "User not found")); [|reflexivity].
    by rewrite res_status_json_fresh by exact Hs.
Qed.

Lemma X26_delete_handler_outcomes_witness :
  deleteUserById (schemas := Sample.schemas) (service := Sample.service)
    (mkReq "1" (∅ : JsObj) (Some (Sample.as_user Sample.root))) Sample.world0
  = (Fulfilled tt,
     mkWorld [Sample.root] 3 5000
       [mkLog LInfo "Deleting user: 1" None;
        mkLog LInfo "User a@x.com deleted successfully" None]
       (mkRes 200
          (Some [("message", JV (JStr "User deleted successfully"));
                 ("user", JO (Sample.row_view Sample.alice))]) []))
  /\ deleteUserById (schemas := Sample.schemas) (service := Sample.service)
       (mkReq "7" (∅ : JsObj) (Some (Sample.as_user Sample.root))) Sample.world0
     = (Fulfilled tt,
        mkWorld [Sample.alice; Sample.root] 3 5000
          [mkLog LInfo "Deleting user: 7" None;
           mkLog LError "Error deleting user: User not found" None]
          (mkRes 404 (Some (error_body "User not found")) [])).
Proof.
  split.
  - apply (X26_delete_handler_outcomes (schemas := Sample.schemas)
             (service := Sample.service)
             (mkReq "1" (∅ : JsObj) (Some (Sample.as_user Sample.root)))
             1 (Sample.as_user Sample.root) Sample.world0
             (mkWorld [Sample.root] 3 5000 [mkLog LInfo "Deleting user: 1" None] fresh_res)
             (Fulfilled (Sample.row_view Sample.alice)));
      solve [ reflexivity | vm_compute; discriminate | vm_compute; reflexivity ].
  - apply (X26_delete_handler_outcomes (schemas := Sample.schemas)
             (service := Sample.service)
             (mkReq "7" (∅ : JsObj) (Some (Sample.as_user Sample.root)))
             7 (Sample.as_user Sample.root) Sample.world0
             (with_log [mkLog LInfo "Deleting user: 7" None] Sample.world0)
             (Rejected (Error "User not found")));
      solve [ reflexivity | vm_compute; discriminate | vm_compute; reflexivity ].
Defined.

(** X27: a requester who is not an admin is answered 403 [Only
    administrators can delete users] by [deleteUserById], also when the
    target is their own id; the delete service is not reached. *)
Theorem X27_nonadmin_cannot_delete
    {Body ZodError : Type} {schemas : Validations Body ZodError}
    {service : UsersService}
    (req : Req Body) (id : Z) (u : JsObj) (w : World) :
  userIdSchema_safeParse (params_id req) = inr id ->
  user req = Some u ->
  js_get u "role" <> JStr "admin" ->
  sent (res w) = None ->
  deleteUserById req w
  = (Fulfilled tt,
     mkWorld (users w) (next_id w) (now w)
       (log w ++ [mkLog LInfo ("Deleting user: " +:+ params_id req) None])
       (mkRes 403
          (Some (denied_body "Access denied" "Only administrators can delete users"))
          (cookie_calls (res w)))).
Proof.
  intros Hid Hu Hrole Hs. unfold deleteUserById.
  rewrite try_after_log, Hid, Hu, (strict_ne_true _ _ Hrole).
  unfold try_catch. by rewrite res_status_json_fresh by exact Hs.
Qed.

Lemma X27_nonadmin_cannot_delete_witness :
  deleteUserById (schemas := Sample.schemas) (service := Sample.service)
    (mkReq "1" (∅ : JsObj) (Some (Sample.as_user Sample.alice))) Sample.world0
  = (Fulfilled tt,
     mkWorld [Sample.alice; Sample.root] 3 5000
       [mkLog LInfo "Deleting user: 1" None]
       (mkRes 403
          (Some (denied_body "Access denied" "Only administrators can delete users")) [])).
Proof.
  apply (X27_nonadmin_cannot_delete (schemas := Sample.schemas) (service := Sample.service)
           (mkReq "1" (∅ : JsObj) (Some (Sample.as_user Sample.alice)))
           1 (Sample.as_user Sample.alice) Sample.world0);
    solve [ reflexivity | vm_compute; discriminate ].
Defined.

(** X28: [deleteUserById] reaches the delete service only for an admin who
    targets an id other than their own. For every other request (an id that
    does not validate, no [req.user], a role other than [admin], or the
    requester's own id) the users table and the serial counter are left as
    they were, for any service and in any state of the response. *)
Theorem X28_delete_refusals_leave_table
    {Body ZodError : Type} {schemas : Validations Body ZodError}
    {service : UsersService}
    (req : Req Body) (w : World) :
  match userIdSchema_safeParse (params_id req), user req with
  | inr id, Some u => js_get u "role" <> JStr "admin" \/ js_get u "id" = JNum id
  | _, _ => True
  end ->
  table (snd (deleteUserById req w)) = table w.
Proof.
  intros Hrefuse. revert w.
  change (preserves table (deleteUserById req)).
  unfold deleteUserById.
  apply preserves_try_catch; [|frame].
  apply preserves_bind; [frame|]. intros _.
  destruct (userIdSchema_safeParse (params_id req)) as [err|id]; [frame|].
  destruct (user req) as [u|]; [|frame].
  destruct (strict_ne (js_get u "role") (JStr "admin")) eqn:Hrole; [frame|].
  destruct (bool_decide (js_get u "id" = JNum id)) eqn:Hown; [frame|].
  exfalso. unfold strict_ne in Hrole. apply negb_false_iff in Hrole.
  apply bool_decide_eq_true in Hrole. apply bool_decide_eq_false in Hown.
  by destruct Hrefuse.
Qed.

Lemma X28_delete_refusals_leave_table_witness :
  table (snd (deleteUserById (schemas := Sample.schemas) (service := Sample.service)
                (mkReq "1" (∅ : JsObj) (Some (Sample.as_user Sample.alice)))
                (with_res (mkRes 200 (Some (error_body "already answered")) [])
                   Sample.world0)))
  = ([Sample.alice; Sample.root], 3).
Proof.
  apply (X28_delete_refusals_leave_table (schemas := Sample.schemas)
           (service := Sample.service)
           (mkReq "1" (∅ : JsObj) (Some (Sample.as_user Sample.alice)))).
  left. vm_compute. discriminate.
Defined.

(** ** What an admin can do through [updateUserById] *)

(** X29: an admin can set a user's role. For an admin requester and a
    validated payload whose properties are among [name], [email] and [role],
    each a string, and whose [role] is [newrole]:
    when the lookup finds the target, the payload's email is unchanged,
    absent or free, and the table has a row with the target id, then after
    [updateUserById] the first row with that id is the old row with the
    payload's columns written, and its role is [newrole]; this holds
    whatever happens afterwards when the response is sent. *)
Theorem X29_admin_can_set_role
    {Body ZodError : Type} {schemas : Validations Body ZodError}
    {service : UsersService}
    (req : Req Body) (id : Z) (updates u existing : JsObj) (r : UserRow)
    (newrole : string) (w w1 : World) :
  userIdSchema_safeParse (params_id req) = inr id ->
  updateUserSchema_safeParse (body req) = inr updates ->
  user req = Some u ->
  js_get u "role" = JStr "admin" ->
  profile_payload updates ->
  updates !! "role" = Some (JStr newrole) ->
  getUserById id
    (with_log (log w ++ [mkLog LInfo ("Updating user: " +:+ params_id req) None]) w)
  = (Fulfilled existing, w1) ->
  (js_get updates "email" = js_get existing "email"
   \/ truthy (js_get updates "email") = false
   \/ (exists e', js_get updates "email" = JStr e'
                  /\ head (filter (fun r => u_email r = e') (users w1)) = None)) ->
  head (filter (fun x => u_id x = id) (users w1)) = Some r ->
  head (filter (fun x => u_id x = id) (users (snd (updateUserById req w))))
  = Some (set_columns (<["updated_at" := JNum (now w1)]> updates) r)
  /\ u_role (set_columns (<["updated_at" := JNum (now w1)]> updates) r) = newrole.
Proof.
  intros Hid Hb Hu Hadmin _ Hrole Hget Hemail Hrow.
  split.
  - rewrite (updateUserById_authorized req id updates u w Hid Hb Hu (or_introl Hadmin)).
    rewrite (strict_ne_false _ _ Hadmin).
    unfold try_catch. unfold bind at 1.
    rewrite (updateUser_run_success id updates existing r _ w1 Hget Hemail Hrow).
    match goal with
    | |- context [bind ?c ?k ?w2] =>
        assert (Hrest : users (snd (bind c k w2)) = users w2)
          by (apply (preserves_bind users); intros; frame);
        destruct (bind c k w2) as [[[]|e] w3]
    end; simpl in Hrest.
    + simpl. rewrite Hrest. simpl. by apply update_returns_target.
    + rewrite (updateUserById_catch_preserves users (fun _ _ => eq_refl)
                 (fun _ _ => eq_refl) e w3), Hrest.
      simpl. by apply update_returns_target.
  - unfold set_columns. simpl. rewrite lookup_insert_ne by done. by rewrite Hrole.
Qed.

Lemma X29_admin_can_set_role_witness :
  head (filter (fun x => u_id x = 1)
          (users (snd (updateUserById (schemas := Sample.schemas)
                         (service := Sample.service)
                         (mkReq "1" {[ "role" := JStr "admin" ]}
                            (Some (Sample.as_user Sample.root)))
                         Sample.world0))))
  = Some (mkRow 1 "Alice" "a@x.com" "$2b$10$correct horse" "admin" 1000 5000).
Proof.
  destruct (X29_admin_can_set_role (schemas := Sample.schemas) (service := Sample.service)
              (mkReq "1" {[ "role" := JStr "admin" ]} (Some (Sample.as_user Sample.root)))
              1 {[ "role" := JStr "admin" ]} (Sample.as_user Sample.root)
              (Sample.row_view Sample.alice) Sample.alice "admin" Sample.world0
              (with_log [mkLog LInfo "Updating user: 1" None] Sample.world0))
    as (Hrow & _);
    [ reflexivity | reflexivity | reflexivity | reflexivity
    | intros k v Hk; apply lookup_singleton_Some in Hk as [<- <-]; eauto
    | reflexivity | reflexivity | right; left; reflexivity | reflexivity | ].
  rewrite Hrow. reflexivity.
Defined.
